(** * The imbalanced-learning and ensemble-learning notebooks

    A shallow embedding of the code cells of [imbalanced_learning.ipynb]
    and [ensemble_learning.ipynb].

    The notebooks are glue code: every cell reads a few names of the
    kernel namespace, calls into numpy, scikit-learn or imbalanced-learn,
    binds the results to names and prints accuracy lines.  The embedding
    keeps that shape.  The kernel is a record holding the namespace (a
    finite map from names to values), the output area and a log of the
    library calls made so far; a cell is a function on kernels written in
    a state-and-exception monad, one monadic statement per Python
    statement.

    The array expressions the cells write out themselves (comparisons,
    boolean-mask assignment, [np.unique], [np.bincount], [zip], [dict],
    [astype(int)]), the 80/20 split and the accuracy metric are modelled
    as functions on lists.  Dataset generators, resamplers and learners
    stay abstract: they are the fields of a [Library] record over which
    every statement is quantified.  The import cells, which only bind
    module names, are left out. *)

From stdpp Require Import gmap strings list fin_maps sorting.
From Stdlib Require Import QArith Qround Qabs.

Open Scope Z_scope.

(** ** Data *)

(** A float64 matrix is a list of rows, an int64 vector a list of
    integers.  Floats are rationals; the only non-finite value a cell can
    meet is the [nan] that the mean of an empty vector gives. *)
Definition Matrix := list (list Q).
Definition Labels := list Z.

Inductive float :=
| Finite (q : Q)
| NaN.

(** The exceptions that can leave a cell. *)
Inductive Exn :=
| NameError (name : string)
| TypeError (name : string)
| ValueError (msg : string)
| IndexError (msg : string)
| NotFittedError
| LibraryError (msg : string).

(** ** numpy expressions written in the cells *)

Module np.

Fixpoint insert_sorted (v : Z) (l : list Z) : list Z :=
  match l with
  | [] => [v]
  | w :: l' =>
      if v <? w then v :: l
      else if v =? w then l
      else w :: insert_sorted v l'
  end.

(** [np.unique(y)]: the distinct values of [y] in increasing order. *)
Definition unique (y : list Z) : list Z := foldr insert_sorted [] y.

Definition count (c : Z) (y : list Z) : Z :=
  Z.of_nat (length (filter (λ v, v = c) y)).

(** [np.bincount(y)]: entry [c] is the number of occurrences of [c] in
    [y], for [c] from 0 to the largest value of [y]; an input with a
    negative entry is refused.  The bins are counted over the integers:
    this is numpy's result while the largest value is below the number of
    entries, as for class labels; what 64-bit arithmetic and the memory
    at hand do to an array of more bins is left out. *)
Definition bincount (y : list Z) : Exn + list Z :=
  if forallb (λ v, 0 <=? v) y then
    let bins := Z.to_nat (foldr Z.max (-1) y + 1) in
    inr ((λ c, count (Z.of_nat c) y) <$> seq 0 bins)
  else inl (ValueError "'list' argument must have no negative elements").

(** [y == c] *)
Definition eq_mask (y : list Z) (c : Z) : list bool := (λ v, v =? c) <$> y.

(** [~mask] *)
Definition invert (mask : list bool) : list bool := negb <$> mask.

(** [y[mask] = c], in place: the entries selected by the mask become
    [c].  A mask of another length is an [IndexError]. *)
Definition setitem_mask (y : list Z) (mask : list bool) (c : Z) : Exn + list Z :=
  if decide (length mask = length y) then
    inr (zip_with (λ v (b : bool), if b then c else v) y mask)
  else inl (IndexError "boolean index did not match indexed array").

(** [X[mask]]: the rows selected by the mask. *)
Definition getitem_mask {A} (X : list A) (mask : list bool) : Exn + list A :=
  if decide (length mask = length X) then
    inr ((fst <$> filter (λ p, snd p = true) (zip X mask)))
  else inl (IndexError "boolean index did not match indexed array").

(** [(y > c).astype(int)] *)
Definition gt_astype_int (y : list Q) (c : Q) : list Z :=
  (λ v, if Qle_bool v c then 0 else 1) <$> y.

End np.

(** [dict(pairs)]: later pairs overwrite earlier ones with the same key. *)
Definition dict {V} (pairs : list (Z * V)) : gmap Z V :=
  foldl (λ m kv, <[kv.1 := kv.2]> m) ∅ pairs.

(** [class_weight = dict(zip(np.unique(y_train), np.bincount(y_train)))] *)
Definition class_weight (y_train : Labels) : Exn + gmap Z Z :=
  match np.bincount y_train with
  | inl e => inl e
  | inr counts => inr (dict (zip (np.unique y_train) counts))
  end.

(** The two assignments of the anomaly-detection cells:
    [y_pred[y_pred == 1] = 0] and then [y_pred[y_pred == -1] = 1]. *)
Definition relabel_anomalies (y_pred : Labels) : Exn + Labels :=
  match np.setitem_mask y_pred (np.eq_mask y_pred 1) 0 with
  | inl e => inl e
  | inr y1 => np.setitem_mask y1 (np.eq_mask y1 (-1)) 1
  end.

(** [y_binary = (y > 150).astype(int)] *)
Definition y_binary (y : list Q) : Labels := np.gt_astype_int y 150%Q.

(** ** scikit-learn functions modelled on lists *)

(** What a library call hands back: the warnings it wrote to the error
    stream, and either an exception or a value. *)
Definition Lib (A : Type) : Type := list string * (Exn + A).

Definition matches (y_true y_pred : Labels) : nat :=
  length (filter (λ p, p.1 = p.2) (zip y_true y_pred)).

(** [accuracy_score(y_true, y_pred)] with its defaults, as scikit-learn
    documents it: the fraction of positions at which the two vectors
    agree.  Vectors of different lengths are refused; on empty vectors
    the mean is [nan] and numpy warns. *)
Definition accuracy_score (y_true y_pred : Labels) : Lib float :=
  if decide (length y_true = length y_pred) then
    match length y_true with
    | O => (["RuntimeWarning: Mean of empty slice."], inr NaN)
    | S _ =>
        ([], inr (Finite (Z.of_nat (matches y_true y_pred) # Pos.of_nat (length y_true))))
    end
  else ([], inl (ValueError "Found input variables with inconsistent numbers of samples")).

(** [a[idx]] for an index array: the rows of [a] at the positions [idx],
    in that order. *)
Definition take_rows {A} (a : list A) (idx : list nat) : option (list A) :=
  mapM (λ i, a !! i) idx.

(** [train_test_split(X, y, test_size=test_size, random_state=random_state)]
    with its other defaults (shuffling, no stratification), as
    scikit-learn documents and implements it.  [rng seed n] is the
    permutation of [0 .. n-1] that a generator seeded with [seed] draws.
    Arrays of different lengths are refused.  The test part has
    [n_test = ceil(test_size * n)] rows and the train part the
    [n - n_test] others; an empty train part is refused.  The test rows
    are those at the first [n_test] indices of the permutation, the train
    rows those at the following ones; the result lists, array by array,
    the train rows and then the test rows.  The product [test_size * n] is taken over the rationals:
    for [test_size = 0.2] the float64 product has the same ceiling, since
    it is exactly [n / 5] when 5 divides [n] and is otherwise far from an
    integer. *)
Definition train_test_split (rng : Z → nat → list nat) (X : Matrix) (y : Labels)
    (test_size : Q) (random_state : Z) : Exn + (Matrix * Matrix * Labels * Labels) :=
  let n_samples := length X in
  if decide (length y = n_samples) then
    let n_test := Z.to_nat (Qceiling (test_size * inject_Z (Z.of_nat n_samples))) in
    let n_train := (n_samples - n_test)%nat in
    if decide (n_train = 0%nat) then
      inl (ValueError "the resulting train set will be empty")
    else
      let permutation := rng random_state n_samples in
      let ind_test := take n_test permutation in
      let ind_train := take n_train (drop n_test permutation) in
      match take_rows X ind_train, take_rows X ind_test,
            take_rows y ind_train, take_rows y ind_test with
      | Some X_train, Some X_test, Some y_train, Some y_test =>
          inr (X_train, X_test, y_train, y_test)
      | _, _, _, _ => inl (IndexError "index out of bounds")
      end
  else inl (ValueError "Found input variables with inconsistent numbers of samples").

(** ** Objects the cells construct *)

Inductive Sampler :=
| ClusterCentroids (random_state : Z)
| TomekLinks
| SMOTE (random_state : Z)
| ADASYN (random_state : Z)
| SMOTEENN (random_state : Z).

Inductive Estimator :=
| RandomForestClassifier (n_estimators : option nat) (random_state : Z)
| DecisionTreeClassifier (max_depth : option nat) (weights : option (gmap Z Q))
    (random_state : Z)
| BaggingClassifier (estimator : Estimator) (n_estimators : nat) (random_state : Z)
| AdaBoostClassifier (estimator : Estimator) (n_estimators : nat) (random_state : Z)
| GradientBoostingClassifier (n_estimators : nat) (random_state : Z)
| LogisticRegression
| StackingClassifier (estimators : list (string * Estimator)) (final_estimator : Estimator)
| OneClassSVM
| IsolationForest.

(** What reaches a cell's output area: a line written by [print], or
    warning text a library call sent to the error stream. *)
Inductive Output :=
| Printed (label : string) (value : float)
| Warned (text : string).

Inductive Res (A : Type) :=
| Ok (a : A)
| Raise (e : Exn).
Arguments Ok {A} a.
Arguments Raise {A} e.

Inductive Outcome :=
| Returned
| Raised (e : Exn).

Section Kernel.

(** The fitted state of an estimator is opaque. *)
Context {Model : Type}.

Inductive Value :=
| VMatrix (X : Matrix)
| VLabels (y : Labels)
| VTargets (y : list Q)
| VMask (mask : list bool)
| VFloat (v : float)
| VDict (d : gmap Z Q)
| VBunch (data : Matrix) (target : Labels + list Q)
| VSampler (s : Sampler)
| VEstimator (e : Estimator) (fitted : option Model)
| VEstimators (l : list (string * Estimator)).

(** The calls that leave the notebook with data, and the arguments they
    carry.  The call of a constructor, which stores its arguments in a
    new object and is handed no data, is not among them: the cells bind
    the object as a value.  The names the import cells bind are taken as
    bound. *)
Inductive Call :=
| call_make_classification (n_samples n_features : nat) (weights : list Q) (random_state : Z)
| call_load (dataset : string)
| call_train_test_split (X : Matrix) (y : Labels)
| call_fit_resample (s : Sampler) (X : Matrix) (y : Labels)
| call_fit (e : Estimator) (X : Matrix) (y : option Labels)
| call_predict (e : Estimator) (fitted : option Model) (X : Matrix)
| call_accuracy_score (y_true y_pred : Labels)
| call_numpy (expr : string).

Definition Event : Type := Call * Outcome.

(** The functions the notebooks take from scikit-learn and
    imbalanced-learn without the notebooks fixing what they compute.  A
    call reads its arguments and returns a fresh value; it does not write
    to the arrays it is given.  A value of this type is the library as it
    behaves in one run: a run fits each estimator once, so what a
    function returns is a function of its arguments once the state in
    which the run finds the pseudo-random generators is fixed.  Two runs
    that find NumPy's global generator in different states are runs under
    two values of this type; see [Generator] and [seeds_respected]. *)
Record Library := {
  make_classification : nat → nat → list Q → Z → Lib (Matrix * Labels);
  load_digits : Lib (Matrix * Labels);
  load_wine : Lib (Matrix * Labels);
  load_diabetes : Lib (Matrix * list Q);
  permutation : Z → nat → list nat;
  fit_resample : Sampler → Matrix → Labels → Lib (Matrix * Labels);
  fit : Estimator → Matrix → option Labels → Lib Model;
  predict : Estimator → Model → Matrix → Lib Labels
}.

(** What the library documents about two of these functions: the
    generator draws a permutation, and a fitted estimator predicts one
    label per row. *)
Record Contract (L : Library) : Prop := {
  permutation_perm : ∀ seed n, permutation L seed n ≡ₚ seq 0 n;
  predict_length : ∀ e m X ws y, predict L e m X = (ws, inr y) → length y = length X
}.

(** *** Running a cell *)

(** A run of a piece of code from a namespace: how it ended, the
    namespace it left, what it wrote to the output area and the library
    calls it made. *)
Record Run (A : Type) := mkRun {
  result : Res A;
  namespace : gmap string Value;
  outputs : list Output;
  events : list Event
}.
Arguments mkRun {A}.
Arguments result {A}.
Arguments namespace {A}.
Arguments outputs {A}.
Arguments events {A}.

Definition Py (A : Type) : Type := gmap string Value → Run A.

Definition ret {A} (a : A) : Py A := λ g, mkRun (Ok a) g [] [].

Definition raise {A} (e : Exn) : Py A := λ g, mkRun (Raise e) g [] [].

(** Sequencing: an exception ends the run where it is raised. *)
Definition bind {A B} (m : Py A) (f : A → Py B) : Py B := λ g,
  match m g with
  | mkRun (Ok a) g1 out1 ev1 =>
      match f a g1 with
      | mkRun res g2 out2 ev2 => mkRun res g2 (out1 ++ out2) (ev1 ++ ev2)
      end
  | mkRun (Raise e) g1 out1 ev1 => mkRun (Raise e) g1 out1 ev1
  end.

#[local] Notation "x ← m ; k" := (bind m (λ x, k))
  (at level 20, m at level 100, k at level 200, only parsing).
#[local] Notation "' p ← m ; k" := (bind m (λ x, let 'p := x in k))
  (at level 20, p pattern, m at level 100, k at level 200, only parsing).
#[local] Notation "m ;; k" := (bind m (λ _, k))
  (at level 100, k at level 200, right associativity, only parsing).

(** Reading a name. *)
Definition load (x : string) : Py Value := λ g,
  match g !! x with
  | Some v => mkRun (Ok v) g [] []
  | None => mkRun (Raise (NameError x)) g [] []
  end.

(** [x = v] *)
Definition assign (x : string) (v : Value) : Py unit := λ g,
  mkRun (Ok tt) (<[x := v]> g) [] [].

(** A call into a library: its warnings reach the output area, the call
    is logged with its outcome, and its exception, if any, is raised in
    the cell. *)
Definition extern {A} (c : Call) (r : Lib A) : Py A := λ g,
  match r.2 with
  | inr a => mkRun (Ok a) g (Warned <$> r.1) [(c, Returned)]
  | inl e => mkRun (Raise e) g (Warned <$> r.1) [(c, Raised e)]
  end.

Definition numpy {A} (expr : string) (r : Exn + A) : Py A :=
  extern (call_numpy expr) ([], r).

Definition load_matrix (x : string) : Py Matrix :=
  v ← load x; match v with VMatrix X => ret X | _ => raise (TypeError x) end.
Definition load_labels (x : string) : Py Labels :=
  v ← load x; match v with VLabels y => ret y | _ => raise (TypeError x) end.
Definition load_targets (x : string) : Py (list Q) :=
  v ← load x; match v with VTargets y => ret y | _ => raise (TypeError x) end.
Definition load_mask (x : string) : Py (list bool) :=
  v ← load x; match v with VMask m => ret m | _ => raise (TypeError x) end.
Definition load_float (x : string) : Py float :=
  v ← load x; match v with VFloat q => ret q | _ => raise (TypeError x) end.
Definition load_dict (x : string) : Py (gmap Z Q) :=
  v ← load x; match v with VDict d => ret d | _ => raise (TypeError x) end.
Definition load_bunch (x : string) : Py (Matrix * (Labels + list Q)) :=
  v ← load x; match v with VBunch X y => ret (X, y) | _ => raise (TypeError x) end.
Definition load_sampler (x : string) : Py Sampler :=
  v ← load x; match v with VSampler s => ret s | _ => raise (TypeError x) end.
Definition load_estimator (x : string) : Py (Estimator * option Model) :=
  v ← load x; match v with VEstimator e m => ret (e, m) | _ => raise (TypeError x) end.
Definition load_estimators (x : string) : Py (list (string * Estimator)) :=
  v ← load x; match v with VEstimators l => ret l | _ => raise (TypeError x) end.

(** [print(label, x)] for a name bound to a float. *)
Definition print (label x : string) : Py unit :=
  v ← load_float x;
  λ g, mkRun (Ok tt) g [Printed label v] [].

(** *** Statements *)

Variable L : Library.

(** [X_train, X_test, y_train, y_test =
       train_test_split(X, y, test_size=0.2, random_state=42)] *)
Definition split_stmt (X y : string) : Py unit :=
  Xv ← load_matrix X;
  yv ← load_labels y;
  '(X_train, X_test, y_train, y_test) ←
    extern (call_train_test_split Xv yv)
      ([], train_test_split (permutation L) Xv yv (2 # 10) 42);
  assign "X_train" (VMatrix X_train);;
  assign "X_test" (VMatrix X_test);;
  assign "y_train" (VLabels y_train);;
  assign "y_test" (VLabels y_test).

(** [X_out, y_out = obj.fit_resample(X, y)] *)
Definition fit_resample_stmt (X_out y_out obj X y : string) : Py unit :=
  s ← load_sampler obj;
  Xv ← load_matrix X;
  yv ← load_labels y;
  '(Xr, yr) ← extern (call_fit_resample s Xv yv) (fit_resample L s Xv yv);
  assign X_out (VMatrix Xr);;
  assign y_out (VLabels yr).

(** [obj.fit(X, y)]: the object bound to [obj] becomes fitted. *)
Definition fit_stmt (obj X y : string) : Py unit :=
  '(e, _) ← load_estimator obj;
  Xv ← load_matrix X;
  yv ← load_labels y;
  m ← extern (call_fit e Xv (Some yv)) (fit L e Xv (Some yv));
  assign obj (VEstimator e (Some m)).

(** [obj.fit(X[~mask])] *)
Definition fit_unmasked_stmt (obj X mask : string) : Py unit :=
  '(e, _) ← load_estimator obj;
  Xv ← load_matrix X;
  mv ← load_mask mask;
  Xn ← numpy "X[~mask]" (np.getitem_mask Xv (np.invert mv));
  m ← extern (call_fit e Xn None) (fit L e Xn None);
  assign obj (VEstimator e (Some m)).

(** [out = obj.predict(X)] *)
Definition predict_stmt (out obj X : string) : Py unit :=
  '(e, m) ← load_estimator obj;
  Xv ← load_matrix X;
  y ← extern (call_predict e m Xv)
        (match m with
         | Some fitted => predict L e fitted Xv
         | None => ([], inl NotFittedError)
         end);
  assign out (VLabels y).

(** [out = accuracy_score(y_true, y_pred)] *)
Definition accuracy_score_stmt (out y_true y_pred : string) : Py unit :=
  yt ← load_labels y_true;
  yp ← load_labels y_pred;
  acc ← extern (call_accuracy_score yt yp) (accuracy_score yt yp);
  assign out (VFloat acc).

(** [y[y == c] = d].  The array is written in place; no other name of a
    cell refers to it, so the assignment is modelled by binding [y] to the
    updated array. *)
Definition setitem_eq_stmt (y : string) (c d : Z) : Py unit :=
  yv ← load_labels y;
  y' ← numpy "y[y == c] = d" (np.setitem_mask yv (np.eq_mask yv c) d);
  assign y (VLabels y').

(** *** The code cells of [imbalanced_learning.ipynb] *)

(** [x = C(args)] for a class [C] of the libraries binds [x] to an object
    that holds [args]; an object is fitted when [fit] has returned. *)

(** Synthetic imbalanced dataset and its split. *)
Definition cell_dataset : Py unit :=
  '(X, y) ← extern (call_make_classification 1000 20 [(99 # 100)%Q; (1 # 100)%Q] 42)
              (make_classification L 1000 20 [(99 # 100)%Q; (1 # 100)%Q] 42);
  assign "X" (VMatrix X);;
  assign "y" (VLabels y);;
  split_stmt "X" "y".

Definition cell_cluster_centroids : Py unit :=
  assign "cluster_centroids" (VSampler (ClusterCentroids 42));;
  fit_resample_stmt "X_train_resampled" "y_train_resampled"
    "cluster_centroids" "X_train" "y_train";;
  assign "rf_model" (VEstimator (RandomForestClassifier None 42) None);;
  fit_stmt "rf_model" "X_train_resampled" "y_train_resampled";;
  predict_stmt "y_pred" "rf_model" "X_test";;
  accuracy_score_stmt "accuracy" "y_test" "y_pred";;
  print "Accuracy after under-sampling:" "accuracy".

Definition cell_tomek_links : Py unit :=
  assign "tomek_links" (VSampler TomekLinks);;
  fit_resample_stmt "X_train_resampled" "y_train_resampled"
    "tomek_links" "X_train" "y_train";;
  assign "rf_model" (VEstimator (RandomForestClassifier None 42) None);;
  fit_stmt "rf_model" "X_train_resampled" "y_train_resampled";;
  predict_stmt "y_pred" "rf_model" "X_test";;
  accuracy_score_stmt "accuracy" "y_test" "y_pred";;
  print "Accuracy after Tomek Links under-sampling:" "accuracy".

Definition cell_smote : Py unit :=
  assign "smote" (VSampler (SMOTE 42));;
  fit_resample_stmt "X_train_resampled" "y_train_resampled"
    "smote" "X_train" "y_train";;
  assign "rf_model" (VEstimator (RandomForestClassifier None 42) None);;
  fit_stmt "rf_model" "X_train_resampled" "y_train_resampled";;
  predict_stmt "y_pred" "rf_model" "X_test";;
  accuracy_score_stmt "accuracy" "y_test" "y_pred";;
  print "Accuracy after over-sampling:" "accuracy".

Definition cell_smote_enn : Py unit :=
  assign "smote_enn" (VSampler (SMOTEENN 42));;
  fit_resample_stmt "X_train_resampled" "y_train_resampled"
    "smote_enn" "X_train" "y_train";;
  assign "rf_model" (VEstimator (RandomForestClassifier None 42) None);;
  fit_stmt "rf_model" "X_train_resampled" "y_train_resampled";;
  predict_stmt "y_pred" "rf_model" "X_test";;
  accuracy_score_stmt "accuracy" "y_test" "y_pred";;
  print "Accuracy after combined resampling:" "accuracy".

Definition cell_smote_adasyn : Py unit :=
  assign "smote" (VSampler (SMOTE 42));;
  assign "adasyn" (VSampler (ADASYN 42));;
  fit_resample_stmt "X_train_resampled_smote" "y_train_resampled_smote"
    "smote" "X_train" "y_train";;
  fit_resample_stmt "X_train_resampled_adasyn" "y_train_resampled_adasyn"
    "adasyn" "X_train" "y_train";;
  assign "rf_model_smote" (VEstimator (RandomForestClassifier None 42) None);;
  fit_stmt "rf_model_smote" "X_train_resampled_smote" "y_train_resampled_smote";;
  assign "rf_model_adasyn" (VEstimator (RandomForestClassifier None 42) None);;
  fit_stmt "rf_model_adasyn" "X_train_resampled_adasyn" "y_train_resampled_adasyn";;
  predict_stmt "y_pred_smote" "rf_model_smote" "X_test";;
  predict_stmt "y_pred_adasyn" "rf_model_adasyn" "X_test";;
  accuracy_score_stmt "accuracy_smote" "y_test" "y_pred_smote";;
  print "Accuracy after SMOTE over-sampling:" "accuracy_smote";;
  accuracy_score_stmt "accuracy_adasyn" "y_test" "y_pred_adasyn";;
  print "Accuracy after ADASYN over-sampling:" "accuracy_adasyn".

Definition cell_class_weighting : Py unit :=
  y ← load_labels "y_train";
  cw ← numpy "dict(zip(np.unique(y_train), np.bincount(y_train)))" (class_weight y);
  assign "class_weight" (VDict (inject_Z <$> cw));;
  w ← load_dict "class_weight";
  assign "dt_model" (VEstimator (DecisionTreeClassifier None (Some w) 42) None);;
  fit_stmt "dt_model" "X_train" "y_train";;
  predict_stmt "y_pred" "dt_model" "X_test";;
  accuracy_score_stmt "accuracy" "y_test" "y_pred";;
  print "Accuracy with class weighting:" "accuracy".

Definition cell_cost_sensitive : Py unit :=
  assign "class_costs" (VDict (<[1 := 10%Q]> (<[0 := 1%Q]> ∅)));;
  w ← load_dict "class_costs";
  assign "dt_model" (VEstimator (DecisionTreeClassifier None (Some w) 42) None);;
  fit_stmt "dt_model" "X_train" "y_train";;
  predict_stmt "y_pred" "dt_model" "X_test";;
  accuracy_score_stmt "accuracy" "y_test" "y_pred";;
  print "Accuracy with cost-sensitive learning:" "accuracy".

Definition cell_one_class_svm : Py unit :=
  y ← load_labels "y_train";
  assign "anomaly_mask" (VMask (np.eq_mask y 1));;
  assign "svm_model" (VEstimator OneClassSVM None);;
  fit_unmasked_stmt "svm_model" "X_train" "anomaly_mask";;
  predict_stmt "y_pred" "svm_model" "X_test";;
  setitem_eq_stmt "y_pred" 1 0;;
  setitem_eq_stmt "y_pred" (-1) 1;;
  accuracy_score_stmt "accuracy" "y_test" "y_pred";;
  print "Accuracy with anomaly detection:" "accuracy".

Definition cell_isolation_forest : Py unit :=
  y ← load_labels "y_train";
  assign "anomaly_mask" (VMask (np.eq_mask y 1));;
  assign "if_model" (VEstimator IsolationForest None);;
  fit_unmasked_stmt "if_model" "X_train" "anomaly_mask";;
  predict_stmt "y_pred" "if_model" "X_test";;
  setitem_eq_stmt "y_pred" 1 0;;
  setitem_eq_stmt "y_pred" (-1) 1;;
  accuracy_score_stmt "accuracy" "y_test" "y_pred";;
  print "Accuracy with Isolation Forest:" "accuracy".

(** *** The code cells of [ensemble_learning.ipynb] *)

Definition cell_bagging : Py unit :=
  '(data, target) ← extern (call_load "digits") (load_digits L);
  assign "digits" (VBunch data (inl target));;
  '(data, target) ← load_bunch "digits";
  assign "X" (VMatrix data);;
  assign "y" (match target with inl y => VLabels y | inr y => VTargets y end);;
  split_stmt "X" "y";;
  assign "base_model" (VEstimator (DecisionTreeClassifier None None 42) None);;
  '(base, _) ← load_estimator "base_model";
  assign "bagging_model" (VEstimator (BaggingClassifier base 20 42) None);;
  fit_stmt "bagging_model" "X_train" "y_train";;
  predict_stmt "y_pred" "bagging_model" "X_test";;
  accuracy_score_stmt "accuracy" "y_test" "y_pred";;
  print "Bagging Accuracy:" "accuracy".

Definition cell_adaboost : Py unit :=
  '(data, target) ← extern (call_load "wine") (load_wine L);
  assign "wine" (VBunch data (inl target));;
  '(data, target) ← load_bunch "wine";
  assign "X" (VMatrix data);;
  assign "y" (match target with inl y => VLabels y | inr y => VTargets y end);;
  split_stmt "X" "y";;
  assign "base_model" (VEstimator (DecisionTreeClassifier (Some 1%nat) None 42) None);;
  '(base, _) ← load_estimator "base_model";
  assign "adaboost_model" (VEstimator (AdaBoostClassifier base 100 42) None);;
  fit_stmt "adaboost_model" "X_train" "y_train";;
  predict_stmt "y_pred" "adaboost_model" "X_test";;
  accuracy_score_stmt "accuracy" "y_test" "y_pred";;
  print "AdaBoost Accuracy:" "accuracy".

Definition cell_stacking : Py unit :=
  '(data, target) ← extern (call_load "diabetes") (load_diabetes L);
  assign "diabetes" (VBunch data (inr target));;
  '(data, target) ← load_bunch "diabetes";
  assign "X" (VMatrix data);;
  assign "y" (match target with inl y => VLabels y | inr y => VTargets y end);;
  y ← load_targets "y";
  assign "y_binary" (VLabels (y_binary y));;
  split_stmt "X" "y_binary";;
  assign "base_models"
    (VEstimators [("rf", RandomForestClassifier (Some 100%nat) 42);
                  ("gb", GradientBoostingClassifier 100 42)]);;
  assign "meta_model" (VEstimator LogisticRegression None);;
  base ← load_estimators "base_models";
  '(meta, _) ← load_estimator "meta_model";
  assign "stacking_model" (VEstimator (StackingClassifier base meta) None);;
  fit_stmt "stacking_model" "X_train" "y_train";;
  predict_stmt "y_pred" "stacking_model" "X_test";;
  accuracy_score_stmt "accuracy" "y_test" "y_pred";;
  print "Stacking Accuracy:" "accuracy".

(** *** Notebooks *)

Inductive Cell :=
| dataset | cluster_centroids | tomek_links | smote | smote_enn | smote_adasyn
| class_weighting | cost_sensitive | one_class_svm | isolation_forest
| bagging | adaboost | stacking.

Definition code (c : Cell) : Py unit :=
  match c with
  | dataset => cell_dataset
  | cluster_centroids => cell_cluster_centroids
  | tomek_links => cell_tomek_links
  | smote => cell_smote
  | smote_enn => cell_smote_enn
  | smote_adasyn => cell_smote_adasyn
  | class_weighting => cell_class_weighting
  | cost_sensitive => cell_cost_sensitive
  | one_class_svm => cell_one_class_svm
  | isolation_forest => cell_isolation_forest
  | bagging => cell_bagging
  | adaboost => cell_adaboost
  | stacking => cell_stacking
  end.

(** The lines a cell prints, by label and the name whose value is
    printed. *)
Definition labels (c : Cell) : list string :=
  match c with
  | dataset => []
  | cluster_centroids => ["Accuracy after under-sampling:"]
  | tomek_links => ["Accuracy after Tomek Links under-sampling:"]
  | smote => ["Accuracy after over-sampling:"]
  | smote_enn => ["Accuracy after combined resampling:"]
  | smote_adasyn => ["Accuracy after SMOTE over-sampling:";
                     "Accuracy after ADASYN over-sampling:"]
  | class_weighting => ["Accuracy with class weighting:"]
  | cost_sensitive => ["Accuracy with cost-sensitive learning:"]
  | one_class_svm => ["Accuracy with anomaly detection:"]
  | isolation_forest => ["Accuracy with Isolation Forest:"]
  | bagging => ["Bagging Accuracy:"]
  | adaboost => ["AdaBoost Accuracy:"]
  | stacking => ["Stacking Accuracy:"]
  end.

(** The cells that load a dataset and split it; the other cells read the
    split they find in the namespace. *)
Definition splits (c : Cell) : bool :=
  match c with
  | dataset | bagging | adaboost | stacking => true
  | _ => false
  end.

(** The cells that resample the training partition. *)
Definition resamples (c : Cell) : bool :=
  match c with
  | cluster_centroids | tomek_links | smote | smote_enn | smote_adasyn => true
  | _ => false
  end.

(** Cells run one after the other in one kernel; the first exception
    stops the run. *)
Definition run_cells (cs : list Cell) : Py unit :=
  foldr (λ c rest, code c;; rest) (ret tt) cs.

Definition imbalanced_learning : list Cell :=
  [dataset; cluster_centroids; tomek_links; smote; smote_enn; smote_adasyn;
   class_weighting; cost_sensitive; one_class_svm; isolation_forest].

Definition ensemble_learning : list Cell := [bagging; adaboost; stacking].

End Kernel.

Arguments Value : clear implicits.
Arguments Call : clear implicits.
Arguments Event : clear implicits.
Arguments Library : clear implicits.
Arguments Run : clear implicits.
Arguments Py : clear implicits.
Arguments mkRun {Model A}.
Arguments result {Model A}.
Arguments namespace {Model A}.
Arguments outputs {Model A}.
Arguments events {Model A}.

(** ** What the notebook files record *)

(** The output areas stored in the two [.ipynb] files, cell by cell.  The
    accuracy values are the decimals as printed; of the warning, the
    file name and the message are kept. *)
Definition recorded (c : Cell) : list Output :=
  match c with
  | dataset => []
  | cluster_centroids =>
      [Warned "sklearn/cluster/_kmeans.py:870: FutureWarning: The default value of `n_init` will change from 10 to 'auto' in 1.4. Set the value of `n_init` explicitly to suppress the warning";
       Printed "Accuracy after under-sampling:" (Finite (705 # 1000))]
  | tomek_links =>
      [Printed "Accuracy after Tomek Links under-sampling:" (Finite (985 # 1000))]
  | smote => [Printed "Accuracy after over-sampling:" (Finite (97 # 100))]
  | smote_enn => [Printed "Accuracy after combined resampling:" (Finite (97 # 100))]
  | smote_adasyn =>
      [Printed "Accuracy after SMOTE over-sampling:" (Finite (97 # 100));
       Printed "Accuracy after ADASYN over-sampling:" (Finite (975 # 1000))]
  | class_weighting => [Printed "Accuracy with class weighting:" (Finite (965 # 1000))]
  | cost_sensitive =>
      [Printed "Accuracy with cost-sensitive learning:" (Finite (975 # 1000))]
  | one_class_svm => [Printed "Accuracy with anomaly detection:" (Finite (455 # 1000))]
  | isolation_forest => [Printed "Accuracy with Isolation Forest:" (Finite (96 # 100))]
  | bagging =>
      [Printed "Bagging Accuracy:" (Finite (9444444444444444 # 10000000000000000))]
  | adaboost =>
      [Printed "AdaBoost Accuracy:" (Finite (9166666666666666 # 10000000000000000))]
  | stacking =>
      [Printed "Stacking Accuracy:" (Finite (7528089887640449 # 10000000000000000))]
  end.

(** ** Vocabulary of the statements proved below *)

(** The lines of an output area that [print] wrote. *)
Definition printed (out : list Output) : list (string * float) :=
  omap (λ o, match o with Printed label v => Some (label, v) | Warned _ => None end) out.

Definition unit_interval (v : float) : Prop :=
  match v with
  | Finite q => (0 <= q)%Q ∧ (q <= 1)%Q
  | NaN => False
  end.

(** An output area that holds one accuracy line per label and nothing
    else. *)
Definition only_accuracy_lines (c : Cell) (out : list Output) : Prop :=
  ∃ vs : list float,
    out = zip_with Printed (labels c) vs ∧ length vs = length (labels c) ∧
    Forall unit_interval vs.

(** A test part that holds exactly one fifth of the rows. *)
Definition exact_fifth (X X_test : Matrix) : Prop :=
  (5 * length X_test = length X)%nat.

(** [X_train, X_test, y_train, y_test] partition the rows of [X, y]: some
    rearrangement of all row indices, cut in two, selects the test rows
    and the train rows, the same indices for the features and for the
    labels; the test part has [ceil(n / 5)] of the [n] rows. *)
Definition partitions (X : Matrix) (y : Labels)
    (X_train X_test : Matrix) (y_train y_test : Labels) : Prop :=
  ∃ ind_train ind_test : list nat,
    ind_test ++ ind_train ≡ₚ seq 0 (length X) ∧
    take_rows X ind_train = Some X_train ∧ take_rows X ind_test = Some X_test ∧
    take_rows y ind_train = Some y_train ∧ take_rows y ind_test = Some y_test ∧
    length y = length X ∧
    (length X ≤ 5 * length X_test < length X + 5)%nat ∧
    (length X_train + length X_test = length X)%nat ∧
    (0 < length X_train)%nat.

Section Vocabulary.

Context {Model : Type}.

(** The values the [accuracy_score] calls of a run returned. *)
Definition scores (evs : list (Event Model)) : list float :=
  omap (λ ev : Event Model,
          match ev with
          | (call_accuracy_score y_true y_pred, Returned) =>
              match (accuracy_score y_true y_pred).2 with
              | inr v => Some v
              | inl _ => None
              end
          | _ => None
          end) evs.

(** The arrays handed to the [train_test_split] calls of a run that
    returned. *)
Definition split_calls (evs : list (Event Model)) : list (Matrix * Labels) :=
  omap (λ ev : Event Model,
          match ev with
          | (call_train_test_split X y, Returned) => Some (X, y)
          | _ => None
          end) evs.

(** The calls of [fit], with the estimator, the rows and the labels they
    were given. *)
Definition fit_calls (evs : list (Event Model)) : list (Estimator * Matrix * option Labels) :=
  omap (λ ev : Event Model,
          match ev with
          | (call_fit est X y, _) => Some (est, X, y)
          | _ => None
          end) evs.

(** The event takes its data from the partitions bound in [g]: a
    resampler the training partition, a prediction the test rows, an
    accuracy the test labels. *)
Definition on_partitions (g : gmap string (Value Model)) (ev : Event Model) : Prop :=
  match ev.1 with
  | call_fit_resample _ X y =>
      g !! "X_train" = Some (VMatrix X) ∧ g !! "y_train" = Some (VLabels y)
  | call_predict _ _ X => g !! "X_test" = Some (VMatrix X)
  | call_accuracy_score y_true _ => g !! "y_test" = Some (VLabels y_true)
  | _ => True
  end.

Definition returned (ev : Event Model) : Prop := ev.2 = Returned.

(** The namespace holds the labels of a non-empty test part. *)
Definition test_labels_bound (g : gmap string (Value Model)) : Prop :=
  ∃ y_test : Labels, g !! "y_test" = Some (VLabels y_test) ∧ y_test ≠ [].

(** *** Stepping through a cell *)

(** A namespace written as the bindings made so far on top of the
    namespace the run started from, newest first; a lookup goes through
    the bindings by comparing names. *)
Definition bound (kvs : list (string * Value Model)) (g : gmap string (Value Model))
    : gmap string (Value Model) :=
  foldr (λ kv m, <[kv.1 := kv.2]> m) g kvs.

Fixpoint assoc (x : string) (kvs : list (string * Value Model)) : option (Value Model) :=
  match kvs with
  | [] => None
  | (k, v) :: kvs' => if String.eqb k x then Some v else assoc x kvs'
  end.

Definition lookup_bound (x : string) (kvs : list (string * Value Model))
    (g : gmap string (Value Model)) : option (Value Model) :=
  match assoc x kvs with
  | Some v => Some v
  | None => g !! x
  end.

(** [wp m g out ev Φ]: [Φ] holds of the way [m] ends when run from [g],
    with [out] and [ev] already written and logged. *)
Definition wp {A} (m : Py Model A) (g : gmap string (Value Model))
    (out : list Output) (ev : list (Event Model))
    (Φ : Res A → gmap string (Value Model) → list Output → list (Event Model) → Prop)
    : Prop :=
  Φ (result (m g)) (namespace (m g)) (out ++ outputs (m g)) (ev ++ events (m g)).

End Vocabulary.

(** ** A stand-in library *)

Definition table (rows cols : nat) : Matrix := repeat (repeat 0%Q cols) rows.

Definition cyclic_labels (period n : nat) : Labels :=
  (λ i, if (i mod period =? 0)%nat then 1 else 0) <$> seq 0 n.

(** A library with no learning in it, to run cells on: datasets of the
    sizes of the scikit-learn tables with constant rows, the reversal as
    permutation, resamplers that return their input, estimators that
    predict class 0 everywhere.  [fit_fails] makes every [fit] raise;
    [warns] makes [ClusterCentroids] warn as in the recorded run. *)
Definition baseline (fit_fails warns : bool) : Library unit := {|
  make_classification := λ n_samples n_features _ _,
    ([], inr (table n_samples n_features, cyclic_labels 100 n_samples));
  load_digits := ([], inr (table 1797 64, cyclic_labels 10 1797));
  load_wine := ([], inr (table 178 13, cyclic_labels 3 178));
  load_diabetes := ([], inr (table 442 10, (λ i, inject_Z (Z.of_nat i)) <$> seq 0 442));
  permutation := λ _ n, reverse (seq 0 n);
  fit_resample := λ s X y,
    (match s with
     | ClusterCentroids _ =>
         if warns then ["FutureWarning: The default value of `n_init` will change from 10 to 'auto' in 1.4."]
         else []
     | _ => []
     end, inr (X, y));
  fit := λ _ _ _, ([], if fit_fails then inl (LibraryError "fit failed") else inr tt);
  predict := λ _ _ X, ([], inr ((λ _, 0) <$> X))
|}.

(** A small namespace holding a split. *)
Definition small_split : gmap string (Value unit) :=
  <["y_test" := VLabels [0; 1]]>
    (<["y_train" := VLabels [0; 0; 1]]>
      (<["X_test" := VMatrix [[4%Q]; [5%Q]]]>
        (<["X_train" := VMatrix [[1%Q]; [2%Q]; [3%Q]]]> ∅))).

(** ** What a cell computes *)

(** The value of a library call that returned. *)
Definition returned_value {A} (r : Lib A) : option A :=
  match r.2 with
  | inr a => Some a
  | inl _ => None
  end.

Definition no_error {A} (r : Exn + A) : option A :=
  match r with
  | inr a => Some a
  | inl _ => None
  end.

(** The names a splitting cell binds and the other cells read. *)
Definition split_names : list string := ["X_train"; "X_test"; "y_train"; "y_test"].

Section Scores.

Context {Model : Type} (L : Library Model).

(** Two namespaces bind the names of [names] alike. *)
Definition agree (names : list string) (g1 g2 : gmap string (Value Model)) : Prop :=
  Forall (λ x, g1 !! x = g2 !! x) names.

(** Run from two namespaces that agree on [reads], the code ends the same
    way, writes the same output and makes the same calls; if it runs to
    its end, the namespaces it leaves agree on [binds]. *)
Definition depends_only {A} (reads binds : list string) (m : Py Model A) : Prop :=
  ∀ g1 g2, agree reads g1 g2 →
    result (m g1) = result (m g2) ∧
    outputs (m g1) = outputs (m g2) ∧
    events (m g1) = events (m g2) ∧
    (∀ a, result (m g1) = Ok a → agree binds (namespace (m g1)) (namespace (m g2))).

(** Fit on a training set, predict on the test rows, score against the
    test labels. *)
Definition fit_predict_score (est : Estimator) (X_train : Matrix)
    (y_train : option Labels) (X_test : Matrix) (y_test : Labels) : option float :=
  m ← returned_value (fit L est X_train y_train);
  y_pred ← returned_value (predict L est m X_test);
  returned_value (accuracy_score y_test y_pred).

(** A random forest fitted on the resampled training partition. *)
Definition resample_score (s : Sampler) (X_train : Matrix) (y_train : Labels)
    (X_test : Matrix) (y_test : Labels) : option float :=
  '(Xr, yr) ← returned_value (fit_resample L s X_train y_train);
  fit_predict_score (RandomForestClassifier None 42) Xr (Some yr) X_test y_test.


(** An outlier detector fitted, without labels, on the training rows
    whose label is not 1; its predictions are relabelled before they are
    scored. *)
Definition anomaly_score (est : Estimator) (X_train : Matrix) (y_train : Labels)
    (X_test : Matrix) (y_test : Labels) : option float :=
  X_normal ← no_error (np.getitem_mask X_train (np.invert (np.eq_mask y_train 1)));
  m ← returned_value (fit L est X_normal None);
  y_pred ← returned_value (predict L est m X_test);
  y_pred' ← no_error (relabel_anomalies y_pred);
  returned_value (accuracy_score y_test y_pred').

(** Split, fit on the train part, score on the test part. *)
Definition split_score (est : Estimator) (X : Matrix) (y : Labels) : option float :=
  '(X_train, X_test, y_train, y_test) ←
    no_error (train_test_split (permutation L) X y (2 # 10) 42);
  fit_predict_score est X_train (Some y_train) X_test y_test.

Definition ensemble_score (c : Cell) : option float :=
  match c with
  | bagging =>
      '(X, y) ← returned_value (load_digits L);
      split_score (BaggingClassifier (DecisionTreeClassifier None None 42) 20 42) X y
  | adaboost =>
      '(X, y) ← returned_value (load_wine L);
      split_score (AdaBoostClassifier (DecisionTreeClassifier (Some 1%nat) None 42) 100 42) X y
  | stacking =>
      '(X, y) ← returned_value (load_diabetes L);
      split_score
        (StackingClassifier
           [("rf", RandomForestClassifier (Some 100%nat) 42);
            ("gb", GradientBoostingClassifier 100 42)]
           LogisticRegression)
        X (y_binary y)
  | _ => None
  end.

End Scores.

(** The sampler a resampling cell with one scenario constructs, and the
    detector of an anomaly-detection cell. *)
Definition sampler_of (c : Cell) : option Sampler :=
  match c with
  | cluster_centroids => Some (ClusterCentroids 42)
  | tomek_links => Some TomekLinks
  | smote => Some (SMOTE 42)
  | smote_enn => Some (SMOTEENN 42)
  | _ => None
  end.

Definition detector_of (c : Cell) : option Estimator :=
  match c with
  | one_class_svm => Some OneClassSVM
  | isolation_forest => Some IsolationForest
  | _ => None
  end.

(** The first name of the split that a cell reads. *)
Definition first_read (c : Cell) : string :=
  match c with
  | class_weighting | one_class_svm | isolation_forest => "y_train"
  | _ => "X_train"
  end.

(** The training rows whose label is not 1. *)
Definition normal_rows (X_train : Matrix) (y_train : Labels) : Matrix :=
  (filter (λ p, p.2 ≠ 1) (zip X_train y_train)).*1.

(** The [i]-th smallest label of [y]. *)
Definition label_of_rank (y : Labels) (i : nat) : option Z := np.unique y !! i.

(** A namespace in which an earlier session left a model and a score but
    no split. *)
Definition stale_kernel : gmap string (Value unit) :=
  <["accuracy" := VFloat NaN]> (<["rf_model" := VEstimator LogisticRegression None]> ∅).

(** A namespace that binds the split of [small_split] and, besides, names
    that an earlier scenario could have left behind. *)
Definition used_kernel : gmap string (Value unit) :=
  <["accuracy" := VFloat NaN]>
    (<["y_pred" := VLabels [7; 7; 7]]>
      (<["rf_model" := VEstimator LogisticRegression None]> small_split)).

(** ** The global generator *)

(** The state of NumPy's global pseudo-random generator.  It lives in the
    process of the kernel, outside the user namespace, and is what an
    object constructed without [random_state] draws from. *)
Definition Generator : Type := N.

(** Whether what fitting the estimator returns depends on the state of
    the global generator.  scikit-learn documents [random_state=None],
    the default, as the global generator.  Of the estimators the
    notebooks construct, the trees, forests and boosted or bagged
    ensembles are given [random_state=42] and seed a generator of their
    own; what [LogisticRegression()] with its default solver and
    [OneClassSVM()] compute uses no random draw; [IsolationForest()] is
    left at the default and grows its trees with the global generator.
    An ensemble depends on the global generator when one of its parts
    does. *)
Fixpoint depends_on_generator (e : Estimator) : bool :=
  match e with
  | IsolationForest => true
  | BaggingClassifier base _ _ | AdaBoostClassifier base _ _ => depends_on_generator base
  | StackingClassifier parts final =>
      existsb (λ p, let '(_, part) := p in depends_on_generator part) parts
      || depends_on_generator final
  | _ => false
  end.

(** Two realisations of the library that differ at most in what fitting
    an estimator returns that depends on the global generator. *)
Record alike {Model} (L1 L2 : Library Model) : Prop := {
  alike_make_classification : ∀ n_samples n_features weights random_state,
    make_classification L1 n_samples n_features weights random_state
      = make_classification L2 n_samples n_features weights random_state;
  alike_load_digits : load_digits L1 = load_digits L2;
  alike_load_wine : load_wine L1 = load_wine L2;
  alike_load_diabetes : load_diabetes L1 = load_diabetes L2;
  alike_permutation : ∀ seed n, permutation L1 seed n = permutation L2 seed n;
  alike_fit_resample : ∀ s X y, fit_resample L1 s X y = fit_resample L2 s X y;
  alike_fit : ∀ e X y, depends_on_generator e = false → fit L1 e X y = fit L2 e X y;
  alike_predict : ∀ e m X, predict L1 e m X = predict L2 e m X
}.

(** The libraries with their hidden state: [W s] is the library as it
    behaves in a run that finds the global generator in state [s].  What
    the libraries document about seeds: the state of the global generator
    matters to what no call returns but the fit of an estimator that
    depends on it.  A call may still move the generator on. *)
Definition seeds_respected {Model} (W : Generator → Library Model) : Prop :=
  ∀ s1 s2, alike (W s1) (W s2).

(** Run from [g], the two pieces of code end the same way, leave the same
    namespace, write the same output and make the same calls; [Ψ] holds
    of how they end. *)
Definition same {Model A} (m1 m2 : Py Model A) (g : gmap string (Value Model))
    (Ψ : Res A → gmap string (Value Model) → Prop) : Prop :=
  m1 g = m2 g ∧ Ψ (result (m1 g)) (namespace (m1 g)).

(** The names a cell assigns. *)
Definition targets (c : Cell) : list string :=
  match c with
  | dataset => ["X"; "y"] ++ split_names
  | cluster_centroids =>
      ["cluster_centroids"; "X_train_resampled"; "y_train_resampled";
       "rf_model"; "y_pred"; "accuracy"]
  | tomek_links =>
      ["tomek_links"; "X_train_resampled"; "y_train_resampled";
       "rf_model"; "y_pred"; "accuracy"]
  | smote =>
      ["smote"; "X_train_resampled"; "y_train_resampled"; "rf_model"; "y_pred"; "accuracy"]
  | smote_enn =>
      ["smote_enn"; "X_train_resampled"; "y_train_resampled";
       "rf_model"; "y_pred"; "accuracy"]
  | smote_adasyn =>
      ["smote"; "adasyn";
       "X_train_resampled_smote"; "y_train_resampled_smote";
       "X_train_resampled_adasyn"; "y_train_resampled_adasyn";
       "rf_model_smote"; "rf_model_adasyn"; "y_pred_smote"; "y_pred_adasyn";
       "accuracy_smote"; "accuracy_adasyn"]
  | class_weighting => ["class_weight"; "dt_model"; "y_pred"; "accuracy"]
  | cost_sensitive => ["class_costs"; "dt_model"; "y_pred"; "accuracy"]
  | one_class_svm => ["anomaly_mask"; "svm_model"; "y_pred"; "accuracy"]
  | isolation_forest => ["anomaly_mask"; "if_model"; "y_pred"; "accuracy"]
  | bagging =>
      ["digits"; "X"; "y"] ++ split_names
      ++ ["base_model"; "bagging_model"; "y_pred"; "accuracy"]
  | adaboost =>
      ["wine"; "X"; "y"] ++ split_names
      ++ ["base_model"; "adaboost_model"; "y_pred"; "accuracy"]
  | stacking =>
      ["diabetes"; "X"; "y"; "y_binary"] ++ split_names
      ++ ["base_models"; "meta_model"; "stacking_model"; "y_pred"; "accuracy"]
  end.

(** The names that the cells which do not split assign: the variables a
    scenario keeps to itself. *)
Definition scenario_locals : list string :=
  flat_map targets (filter (λ c, splits c = false) imbalanced_learning).

(** The names that some cell of the two notebooks assigns. *)
Definition notebook_names : list string :=
  flat_map targets (imbalanced_learning ++ ensemble_learning).

(** Two namespaces that differ at most on [names]: every other name, an
    imported one for instance, is bound alike in both or in neither. *)
Definition differ_only_on {Model} (names : list string)
    (g1 g2 : gmap string (Value Model)) : Prop :=
  ∀ x, x ∉ names → g1 !! x = g2 !! x.

(** A library in which what an unseeded forest learns depends on the
    global generator.  A fitted estimator predicts one label for every
    row: a classifier 0, [OneClassSVM()] 1 (normal), and
    [IsolationForest()] 1 or -1 (anomaly) by the parity of the state the
    generator is in.  Tables, permutation and resamplers are those of
    [baseline]. *)
Definition drawing (s : Generator) : Library Z := {|
  make_classification := λ n_samples n_features _ _,
    ([], inr (table n_samples n_features, cyclic_labels 100 n_samples));
  load_digits := ([], inr (table 1797 64, cyclic_labels 10 1797));
  load_wine := ([], inr (table 178 13, cyclic_labels 3 178));
  load_diabetes := ([], inr (table 442 10, (λ i, inject_Z (Z.of_nat i)) <$> seq 0 442));
  permutation := λ _ n, reverse (seq 0 n);
  fit_resample := λ _ X y, ([], inr (X, y));
  fit := λ e _ _,
    ([], inr (match e with
              | IsolationForest => if N.even s then 1 else -1
              | OneClassSVM => 1
              | _ => 0
              end));
  predict := λ _ label X, ([], inr ((λ _, label) <$> X))
|}.

(** The split of [small_split] in a kernel of [drawing], and the same
    kernel after a scenario has left a model, predictions and a score. *)
Definition drawn_split : gmap string (Value Z) :=
  <["y_test" := VLabels [0; 1]]>
    (<["y_train" := VLabels [0; 0; 1]]>
      (<["X_test" := VMatrix [[4%Q]; [5%Q]]]>
        (<["X_train" := VMatrix [[1%Q]; [2%Q]; [3%Q]]]> ∅))).

Definition drawn_kernel : gmap string (Value Z) :=
  <["accuracy" := VFloat NaN]>
    (<["y_pred" := VLabels [7; 7; 7]]>
      (<["rf_model" := VEstimator LogisticRegression (Some 0)]> drawn_split)).

(* ================================================================== *)
(** * Properties *)

(** ** numpy expressions *)

Section NumpyFacts.

Lemma insert_sorted_elem v w l : w ∈ np.insert_sorted v l ↔ w = v ∨ w ∈ l.
Proof.
  induction l as [|x l IH]; simpl.
  - rewrite list_elem_of_singleton. set_solver.
  - destruct (Z.ltb_spec v x); [set_solver|].
    destruct (Z.eqb_spec v x) as [->|]; [set_solver|].
    rewrite !elem_of_cons, IH. naive_solver.
Qed.

Lemma unique_elem v y : v ∈ np.unique y ↔ v ∈ y.
Proof.
  induction y as [|x y IH]; simpl; [done|].
  rewrite insert_sorted_elem, elem_of_cons, IH. done.
Qed.

Lemma insert_sorted_sorted v l :
  StronglySorted Z.lt l → StronglySorted Z.lt (np.insert_sorted v l).
Proof.
  induction 1 as [|x l Hs IH Hx]; simpl.
  - repeat constructor.
  - destruct (Z.ltb_spec v x).
    + constructor; [by constructor|].
      constructor; [done|].
      eapply Forall_impl; [exact Hx|]. intros; simpl in *; lia.
    + destruct (Z.eqb_spec v x); [by constructor|].
      constructor; [done|].
      apply Forall_forall. intros w Hw.
      apply insert_sorted_elem in Hw as [->|Hw]; [lia|].
      by eapply Forall_forall in Hx.
Qed.

Lemma unique_sorted y : StronglySorted Z.lt (np.unique y).
Proof.
  induction y; simpl; [constructor|by apply insert_sorted_sorted].
Qed.

End NumpyFacts.

Section ClassWeight.

Lemma sorted_range (l : list Z) (s k : nat) :
  StronglySorted Z.lt l →
  (∀ v, v ∈ l ↔ Z.of_nat s ≤ v < Z.of_nat (s + k)) →
  l = Z.of_nat <$> seq s k.
Proof.
  revert s l. induction k as [|k IH]; intros s l Hs Hl.
  - destruct l as [|x l]; [done|].
    assert (x ∈ x :: l) as Hx%Hl by set_solver. lia.
  - destruct l as [|x l].
    { assert (Z.of_nat s ∈ @nil Z) as Hx by (apply Hl; lia). inversion Hx. }
    apply StronglySorted_inv in Hs as [Hs Hx].
    rewrite Forall_forall in Hx.
    assert (x = Z.of_nat s) as ->.
    { assert (Z.of_nat s ∈ x :: l) as Hin by (apply Hl; lia).
      assert (x ∈ x :: l) as Hxin%Hl by set_solver.
      apply elem_of_cons in Hin as [?|Hin%Hx]; lia. }
    simpl. f_equal. apply IH; [done|].
    intros v. split.
    + intros Hv. pose proof (Hx _ Hv).
      assert (v ∈ Z.of_nat s :: l) as ?%Hl by set_solver. lia.
    + intros Hv. assert (v ∈ Z.of_nat s :: l) as Hin by (apply Hl; lia).
      apply elem_of_cons in Hin as [?|?]; [lia|done].
Qed.

Lemma max_upper (y : list Z) v : v ∈ y → v ≤ foldr Z.max (-1) y.
Proof.
  induction 1 as [v y|v w y _ IH]; simpl; lia.
Qed.

Lemma max_attained (y : list Z) : y ≠ [] → (∀ v, v ∈ y → 0 ≤ v) → foldr Z.max (-1) y ∈ y.
Proof.
  induction y as [|x y IH]; [done|]. intros _ Hpos. simpl.
  destruct y as [|x' y].
  - simpl. assert (0 ≤ x) by (apply Hpos; set_solver).
    replace (x `max` (-1)) with x by lia. set_solver.
  - destruct (Z.max_spec x (foldr Z.max (-1) (x' :: y))) as [[_ ->]|[_ ->]].
    + apply elem_of_cons. right. apply IH; [done|]. intros; apply Hpos; set_solver.
    + set_solver.
Qed.

Lemma bincount_range (y : list Z) (k : nat) :
  (∀ c, c ∈ y ↔ 0 ≤ c < Z.of_nat k) →
  np.bincount y = inr ((λ c, np.count c y) <$> (Z.of_nat <$> seq 0 k)).
Proof.
  intros Hy. unfold np.bincount.
  assert (forallb (λ v, 0 <=? v) y = true) as ->.
  { apply forallb_forall. intros v Hv%list_elem_of_In%Hy. lia. }
  assert (Z.to_nat (foldr Z.max (-1) y + 1) = k) as ->.
  { destruct y as [|x y].
    - simpl. destruct k; [done|].
      assert (0 ∈ @nil Z) as H0 by (apply Hy; lia). inversion H0.
    - assert (foldr Z.max (-1) (x :: y) ∈ x :: y) as Hm%Hy.
      { apply max_attained; [done|]. intros v Hv%Hy. lia. }
      assert (Z.of_nat k - 1 ∈ x :: y) as Hk%max_upper by (apply Hy; lia).
      lia. }
  by rewrite <- list_fmap_compose.
Qed.

Lemma zip_graph {A B} (g : A → B) (l : list A) :
  zip l (g <$> l) = (λ x, (x, g x)) <$> l.
Proof. induction l; simpl; [done|by f_equal]. Qed.

Lemma dict_graph_lookup {V} (h : Z → V) (keys : list Z) (m0 : gmap Z V) c :
  foldl (λ m kv, <[kv.1 := kv.2]> m) m0 ((λ z, (z, h z)) <$> keys) !! c
  = if decide (c ∈ keys) then Some (h c) else m0 !! c.
Proof.
  revert m0. induction keys as [|z keys IH]; intros m0; simpl.
  - done.
  - rewrite IH. destruct (decide (c ∈ keys)).
    + by rewrite decide_True by set_solver.
    + destruct (decide (c = z)) as [->|].
      * rewrite decide_True by set_solver. by rewrite lookup_insert_eq.
      * rewrite decide_False by set_solver. by rewrite lookup_insert_ne.
Qed.

End ClassWeight.

(** C5.  When the labels occurring in [y_train] are exactly [0 .. k-1],
    the dictionary [dict(zip(np.unique(y_train), np.bincount(y_train)))]
    is built without error, its keys are the labels that occur in
    [y_train], and each label is mapped to the raw number of samples that
    carry it. *)
Theorem class_weight_raw_counts (y_train : Labels) (k : nat) :
  (∀ c, c ∈ y_train ↔ 0 ≤ c < Z.of_nat k) →
  ∃ cw, class_weight y_train = inr cw ∧
    ∀ c, cw !! c = if decide (c ∈ y_train) then Some (np.count c y_train) else None.
Proof.
  intros Hy. unfold class_weight. rewrite (bincount_range _ k Hy).
  eexists; split; [done|]. intros c.
  rewrite (sorted_range (np.unique y_train) 0 k).
  - rewrite zip_graph. unfold dict.
    rewrite (dict_graph_lookup (λ z, np.count z y_train)), lookup_empty.
    destruct (decide (c ∈ y_train)) as [Hc|Hc].
    + rewrite decide_True; [done|]. apply Hy in Hc.
      apply list_elem_of_fmap. exists (Z.to_nat c). split; [lia|].
      apply elem_of_seq. lia.
    + rewrite decide_False; [done|]. intros (i & -> & Hi%elem_of_seq)%list_elem_of_fmap.
      apply Hc, Hy. lia.
  - apply unique_sorted.
  - intros v. rewrite unique_elem, Hy. simpl. lia.
Qed.

Lemma class_weight_raw_counts_witness :
  ∃ cw, class_weight [0; 0; 1; 0; 0] = inr cw ∧
    ∀ c, cw !! c = if decide (c ∈ [0; 0; 1; 0; 0]) then Some (np.count c [0; 0; 1; 0; 0]) else None.
Proof.
  apply (class_weight_raw_counts [0; 0; 1; 0; 0] 2).
  intros c. rewrite !elem_of_cons, elem_of_nil. lia.
Defined.

(** The majority class gets the larger weight: on four samples of class 0
    and one of class 1 the dictionary is [{0: 4, 1: 1}]. *)
Example class_weight_majority :
  class_weight [0; 0; 1; 0; 0] = inr (<[1 := 1]> (<[0 := 4]> ∅)).
Proof. reflexivity. Qed.

Section MaskAssignment.

Lemma setitem_eq_mask (y : list Z) (c d : Z) :
  np.setitem_mask y (np.eq_mask y c) d = inr ((λ v, if v =? c then d else v) <$> y).
Proof.
  unfold np.setitem_mask, np.eq_mask.
  rewrite decide_True by apply length_fmap. f_equal.
  induction y as [|v y IH]; csimpl; [done|]. by rewrite IH.
Qed.

End MaskAssignment.

(** C9.  On a prediction vector with entries in {-1, 1}, the assignment
    [y_pred[y_pred == 1] = 0] followed by [y_pred[y_pred == -1] = 1]
    raises nothing and leaves a vector of the same length with entries in
    {0, 1}: every 1 has become 0 and every -1 has become 1.  No entry
    written by the first assignment is selected by the mask of the
    second. *)
Theorem relabel_anomalies_spec (y_pred : Labels) :
  Forall (λ v, v = 1 ∨ v = -1) y_pred →
  ∃ y1 y2,
    np.setitem_mask y_pred (np.eq_mask y_pred 1) 0 = inr y1 ∧
    np.setitem_mask y1 (np.eq_mask y1 (-1)) 1 = inr y2 ∧
    relabel_anomalies y_pred = inr y2 ∧
    Forall (λ v, v = 0 ∨ v = 1) y2 ∧
    Forall2 (λ v v', (v = 1 → v' = 0) ∧ (v = -1 → v' = 1)) y_pred y2 ∧
    Forall2 (λ b1 b2 : bool, b1 = true → b2 = false)
      (np.eq_mask y_pred 1) (np.eq_mask y1 (-1)).
Proof.
  intros Hy. unfold relabel_anomalies.
  rewrite setitem_eq_mask. do 2 eexists.
  split; [reflexivity|]. rewrite setitem_eq_mask.
  split; [reflexivity|]. split; [reflexivity|].
  unfold np.eq_mask. rewrite <- !list_fmap_compose.
  split; [|split].
  - apply Forall_fmap. eapply Forall_impl; [exact Hy|].
    intros v [-> | ->]; simpl; lia.
  - apply Forall2_fmap_r, Forall_Forall2_diag.
    eapply Forall_impl; [exact Hy|].
    intros v [-> | ->]; simpl; split; intros; lia.
  - apply Forall2_fmap, Forall_Forall2_diag, Forall_forall.
    intros v _. simpl. destruct (Z.eqb_spec v 1); [done|]. intros; discriminate.
Qed.

Lemma relabel_anomalies_spec_witness :
  ∃ y1 y2,
    np.setitem_mask [1; -1; 1; 1] (np.eq_mask [1; -1; 1; 1] 1) 0 = inr y1 ∧
    np.setitem_mask y1 (np.eq_mask y1 (-1)) 1 = inr y2 ∧
    relabel_anomalies [1; -1; 1; 1] = inr y2 ∧
    Forall (λ v, v = 0 ∨ v = 1) y2 ∧
    Forall2 (λ v v', (v = 1 → v' = 0) ∧ (v = -1 → v' = 1)) [1; -1; 1; 1] y2 ∧
    Forall2 (λ b1 b2 : bool, b1 = true → b2 = false)
      (np.eq_mask [1; -1; 1; 1] 1) (np.eq_mask y1 (-1)).
Proof.
  apply (relabel_anomalies_spec [1; -1; 1; 1]).
  repeat (constructor; [lia|]). constructor.
Defined.

Example relabel_anomalies_run : relabel_anomalies [1; -1; 1; 1] = inr [0; 1; 0; 0].
Proof. reflexivity. Qed.

(** In the other order the two assignments would lose the normal
    instances: after [y_pred[y_pred == -1] = 1] every entry is 1. *)
Example relabel_other_order :
  (match np.setitem_mask [1; -1; 1; 1] (np.eq_mask [1; -1; 1; 1] (-1)) 1 with
   | inl e => inl e
   | inr y1 => np.setitem_mask y1 (np.eq_mask y1 1) 0
   end) = inr [0; 0; 0; 0].
Proof. reflexivity. Qed.

(** C10.  [y_binary = (y > 150).astype(int)] has one entry per target;
    each entry is 0 or 1, and it is 1 exactly when the target is strictly
    greater than 150. *)
Theorem y_binary_threshold (y : list Q) :
  Forall2 (λ v b, (b = 0 ∨ b = 1) ∧ (b = 1 ↔ (150 < v)%Q)) y (y_binary y).
Proof.
  unfold y_binary, np.gt_astype_int.
  apply Forall2_fmap_r, Forall_Forall2_diag, Forall_forall.
  intros v _. unfold compose. cbv beta.
  destruct (Qle_bool v 150) eqn:Hle.
  - apply Qle_bool_iff in Hle. split; [by left|].
    split; [done|]. intros Hlt. by apply Qlt_not_le in Hlt.
  - split; [by right|]. split; [|done]. intros _.
    apply Qnot_le_lt. intros Hle'%Qle_bool_iff. congruence.
Qed.

Example y_binary_run :
  y_binary [151%Q; 75%Q; 150%Q; (3001 # 20)%Q; (1501 # 10)%Q] = [1; 0; 0; 1; 1].
Proof. reflexivity. Qed.

(** ** Stepping rules *)

Section Stepping.

Context {Model : Type}.

Implicit Types (g : gmap string (Value Model)) (kvs : list (string * Value Model)).
Implicit Types (out : list Output) (ev : list (Event Model)).

Lemma String_eqb_eq (x y : string) : String.eqb x y = true ↔ x = y.
Proof. apply String.eqb_eq. Qed.

Lemma lookup_bound_spec x kvs g : bound kvs g !! x = lookup_bound x kvs g.
Proof.
  unfold lookup_bound. induction kvs as [|[k v] kvs IH]; simpl; [done|].
  destruct (String.eqb k x) eqn:Hk.
  - apply String_eqb_eq in Hk as ->. by rewrite lookup_insert_eq.
  - rewrite lookup_insert_ne; [done|]. intros ->.
    by rewrite String.eqb_refl in Hk.
Qed.

Lemma wp_start {A} (m : Py Model A) g out ev Φ :
  wp m (bound [] g) out ev Φ → wp m g out ev Φ.
Proof. done. Qed.

Lemma wp_bind {A B} (m : Py Model A) (f : A → Py Model B) g out ev Φ :
  wp m g out ev (λ res g1 out1 ev1,
    match res with
    | Ok a => wp (f a) g1 out1 ev1 Φ
    | Raise e => Φ (Raise e) g1 out1 ev1
    end) →
  wp (bind m f) g out ev Φ.
Proof.
  unfold wp, bind. destruct (m g) as [[a|e] g1 out1 ev1]; simpl; [|done].
  destruct (f a g1) as [res g2 out2 ev2]; simpl. by rewrite !app_assoc.
Qed.

Lemma wp_ret {A} (a : A) g out ev Φ : Φ (Ok a) g out ev → wp (ret a) g out ev Φ.
Proof. unfold wp, ret; simpl. by rewrite !app_nil_r. Qed.

Lemma wp_assign x v kvs g out ev Φ :
  Φ (Ok tt) (bound ((x, v) :: kvs) g) out ev → wp (assign x v) (bound kvs g) out ev Φ.
Proof. unfold wp, assign; simpl. by rewrite !app_nil_r. Qed.

Lemma wp_extern {A} c (r : Lib A) g out ev Φ :
  (∀ ws a, r = (ws, inr a) → Φ (Ok a) g (out ++ (Warned <$> ws)) (ev ++ [(c, Returned)])) →
  (∀ ws e, r = (ws, inl e) → Φ (Raise e) g (out ++ (Warned <$> ws)) (ev ++ [(c, Raised e)])) →
  wp (extern c r) g out ev Φ.
Proof.
  intros Hok Herr. unfold wp, extern. destruct r as [ws [e|a]]; simpl; eauto.
Qed.

Lemma wp_numpy {A} expr (r : Exn + A) g out ev Φ :
  (∀ a, r = inr a → Φ (Ok a) g out (ev ++ [(call_numpy expr, Returned)])) →
  (∀ e, r = inl e → Φ (Raise e) g out (ev ++ [(call_numpy expr, Raised e)])) →
  wp (numpy expr r) g out ev Φ.
Proof.
  intros Hok Herr. unfold wp, numpy, extern.
  destruct r as [e|a]; simpl; rewrite app_nil_r; eauto.
Qed.

(** Reading a name either finds a value of the expected kind or raises
    without having written or called anything. *)
Ltac wp_load_proof :=
  intros Hok Herr; unfold wp, bind, load;
  rewrite lookup_bound_spec in *;
  match goal with
  | |- context [lookup_bound ?x ?kvs ?g] => destruct (lookup_bound x kvs g) as [[]|]
  end; simpl; rewrite ?app_nil_r;
  first [ by apply Hok | apply Herr; intros; discriminate ].

Lemma wp_load_matrix x kvs g out ev Φ :
  (∀ X, lookup_bound x kvs g = Some (VMatrix X) → Φ (Ok X) (bound kvs g) out ev) →
  (∀ e, (∀ X, lookup_bound x kvs g ≠ Some (VMatrix X)) → Φ (Raise e) (bound kvs g) out ev) →
  wp (load_matrix x) (bound kvs g) out ev Φ.
Proof. unfold load_matrix. wp_load_proof. Qed.

Lemma wp_load_labels x kvs g out ev Φ :
  (∀ y, lookup_bound x kvs g = Some (VLabels y) → Φ (Ok y) (bound kvs g) out ev) →
  (∀ e, (∀ y, lookup_bound x kvs g ≠ Some (VLabels y)) → Φ (Raise e) (bound kvs g) out ev) →
  wp (load_labels x) (bound kvs g) out ev Φ.
Proof. unfold load_labels. wp_load_proof. Qed.

Lemma wp_load_targets x kvs g out ev Φ :
  (∀ y, lookup_bound x kvs g = Some (VTargets y) → Φ (Ok y) (bound kvs g) out ev) →
  (∀ e, (∀ y, lookup_bound x kvs g ≠ Some (VTargets y)) → Φ (Raise e) (bound kvs g) out ev) →
  wp (load_targets x) (bound kvs g) out ev Φ.
Proof. unfold load_targets. wp_load_proof. Qed.

Lemma wp_load_mask x kvs g out ev Φ :
  (∀ m, lookup_bound x kvs g = Some (VMask m) → Φ (Ok m) (bound kvs g) out ev) →
  (∀ e, (∀ m, lookup_bound x kvs g ≠ Some (VMask m)) → Φ (Raise e) (bound kvs g) out ev) →
  wp (load_mask x) (bound kvs g) out ev Φ.
Proof. unfold load_mask. wp_load_proof. Qed.

Lemma wp_load_dict x kvs g out ev Φ :
  (∀ d, lookup_bound x kvs g = Some (VDict d) → Φ (Ok d) (bound kvs g) out ev) →
  (∀ e, (∀ d, lookup_bound x kvs g ≠ Some (VDict d)) → Φ (Raise e) (bound kvs g) out ev) →
  wp (load_dict x) (bound kvs g) out ev Φ.
Proof. unfold load_dict. wp_load_proof. Qed.

Lemma wp_load_bunch x kvs g out ev Φ :
  (∀ X y, lookup_bound x kvs g = Some (VBunch X y) → Φ (Ok (X, y)) (bound kvs g) out ev) →
  (∀ e, (∀ X y, lookup_bound x kvs g ≠ Some (VBunch X y)) → Φ (Raise e) (bound kvs g) out ev) →
  wp (load_bunch x) (bound kvs g) out ev Φ.
Proof. unfold load_bunch. wp_load_proof. Qed.

Lemma wp_load_sampler x kvs g out ev Φ :
  (∀ s, lookup_bound x kvs g = Some (VSampler s) → Φ (Ok s) (bound kvs g) out ev) →
  (∀ e, (∀ s, lookup_bound x kvs g ≠ Some (VSampler s)) → Φ (Raise e) (bound kvs g) out ev) →
  wp (load_sampler x) (bound kvs g) out ev Φ.
Proof. unfold load_sampler. wp_load_proof. Qed.

Lemma wp_load_estimator x kvs g out ev Φ :
  (∀ e m, lookup_bound x kvs g = Some (VEstimator e m) →
          Φ (Ok (e, m)) (bound kvs g) out ev) →
  (∀ e, (∀ e' m, lookup_bound x kvs g ≠ Some (VEstimator e' m)) →
        Φ (Raise e) (bound kvs g) out ev) →
  wp (load_estimator x) (bound kvs g) out ev Φ.
Proof. unfold load_estimator. wp_load_proof. Qed.

Lemma wp_load_estimators x kvs g out ev Φ :
  (∀ l, lookup_bound x kvs g = Some (VEstimators l) → Φ (Ok l) (bound kvs g) out ev) →
  (∀ e, (∀ l, lookup_bound x kvs g ≠ Some (VEstimators l)) → Φ (Raise e) (bound kvs g) out ev) →
  wp (load_estimators x) (bound kvs g) out ev Φ.
Proof. unfold load_estimators. wp_load_proof. Qed.

Lemma wp_print label x kvs g out ev Φ :
  (∀ v, lookup_bound x kvs g = Some (VFloat v) →
        Φ (Ok tt) (bound kvs g) (out ++ [Printed label v]) ev) →
  (∀ e, (∀ v, lookup_bound x kvs g ≠ Some (VFloat v)) → Φ (Raise e) (bound kvs g) out ev) →
  wp (print label x) (bound kvs g) out ev Φ.
Proof. unfold print, load_float. wp_load_proof. Qed.

End Stepping.

(** A fact about a name read through the bindings: either the name was
    bound by the cell, and the fact names its value, or it is a fact about
    the namespace the run started from. *)
Ltac ns_fact H :=
  lazy beta iota delta [lookup_bound assoc String.eqb Ascii.eqb Bool.eqb] in H;
  try match type of H with
  | ?g !! ?x = Some _ =>
      match goal with
      | H' : g !! x = Some _ |- _ =>
          tryif constr_eq H' H then fail else rewrite H' in H
      end
  end;
  try first [ discriminate H | injection H as H; subst ];
  repeat match goal with
  | H0 : ?a = ?a |- _ => clear H0
  end.

(** A read cannot fail on a name that is known to be bound to a value of
    the expected kind. *)
Ltac ns_absurd H :=
  lazy beta iota delta [lookup_bound assoc String.eqb Ascii.eqb Bool.eqb] in H;
  try (exfalso; eapply H; first [ reflexivity | eassumption ]).

Ltac head_of t := lazymatch t with ?f _ => head_of f | _ => t end.

(** Applies the rule of a read: the name holds a value of the expected
    kind, which is recorded, or the read raises. *)
Ltac wp_read rule :=
  apply rule;
  [ let H := fresh "Hns" in intros ? H; ns_fact H
  | let H := fresh "Hno" in intros ? H; ns_absurd H ].

Ltac wp_read2 rule :=
  apply rule;
  [ let H := fresh "Hns" in intros ? ? H; ns_fact H
  | let H := fresh "Hno" in intros ? H; ns_absurd H ].

Ltac wp_step :=
  lazymatch goal with
  | |- wp (bind _ _) _ _ _ _ => apply wp_bind
  | |- wp (ret _) _ _ _ _ => apply wp_ret
  | |- wp (assign _ _) _ _ _ _ => apply wp_assign
  | |- wp (extern _ _) _ _ _ _ => apply wp_extern; [intros ? ? ?Hcall | intros ? ? ?Hcall]
  | |- wp (numpy _ _) _ _ _ _ => apply wp_numpy; [intros ? ?Hcall | intros ? ?Hcall]
  | |- wp (load_matrix _) _ _ _ _ => wp_read wp_load_matrix
  | |- wp (load_labels _) _ _ _ _ => wp_read wp_load_labels
  | |- wp (load_targets _) _ _ _ _ => wp_read wp_load_targets
  | |- wp (load_mask _) _ _ _ _ => wp_read wp_load_mask
  | |- wp (load_dict _) _ _ _ _ => wp_read wp_load_dict
  | |- wp (load_bunch _) _ _ _ _ => wp_read2 wp_load_bunch
  | |- wp (load_sampler _) _ _ _ _ => wp_read wp_load_sampler
  | |- wp (load_estimator _) _ _ _ _ => wp_read2 wp_load_estimator
  | |- wp (load_estimators _) _ _ _ _ => wp_read wp_load_estimators
  | |- wp (print _ _) _ _ _ _ => wp_read wp_print
  | |- wp (let '(_, _) := ?x in _) _ _ _ _ => destruct x
  | |- wp ?m _ _ _ _ => let h := head_of m in unfold h
  end; cbv beta iota.

(** Runs a cell symbolically: one goal per way the cell can end. *)
Ltac wp_run := apply wp_start; repeat wp_step.

(** ** The resampling cells and the test partition *)

Section Frame.

Context {Model : Type} (L : Library Model).

Lemma frame_wp (c : Cell) (g : gmap string (Value Model)) :
  splits c = false →
  wp (code L c) g [] [] (λ _ g' _ ev,
    g' !! "X_test" = g !! "X_test" ∧ g' !! "y_test" = g !! "y_test" ∧
    Forall (on_partitions g) ev).
Proof.
  intros Hc. destruct c; try discriminate Hc; clear Hc; unfold code.
  all: wp_run.
  all: rewrite !lookup_bound_spec;
       lazy beta iota delta [lookup_bound assoc String.eqb Ascii.eqb Bool.eqb].
  all: split; [done|split; [done|]].
  all: cbn [app]; repeat constructor; unfold on_partitions; cbn [fst]; done.
Qed.

End Frame.

(** C7.  A resampling cell leaves the names [X_test] and [y_test] bound as
    it found them, whether it runs to its end or stops on an exception.
    Every [fit_resample] it calls gets the training partition of the
    namespace it started from, every [predict] the test rows and every
    [accuracy_score] the test labels of that namespace. *)
Theorem resampling_leaves_test_partition {Model} (L : Library Model)
    (c : Cell) (g : gmap string (Value Model)) :
  resamples c = true →
  namespace (code L c g) !! "X_test" = g !! "X_test" ∧
  namespace (code L c g) !! "y_test" = g !! "y_test" ∧
  Forall (on_partitions g) (events (code L c g)).
Proof. intros Hc. apply (frame_wp L c g). by destruct c. Qed.

Lemma resampling_leaves_test_partition_witness :
  namespace (code (baseline false false) tomek_links small_split) !! "X_test"
    = small_split !! "X_test" ∧
  namespace (code (baseline false false) tomek_links small_split) !! "y_test"
    = small_split !! "y_test" ∧
  Forall (on_partitions small_split)
    (events (code (baseline false false) tomek_links small_split)).
Proof.
  apply (resampling_leaves_test_partition (baseline false false) tomek_links small_split).
  reflexivity.
Defined.

(** ** Output areas and the accuracy metric *)

Section Outputs.

Lemma printed_app (a b : list Output) : printed (a ++ b) = printed a ++ printed b.
Proof. apply omap_app. Qed.

Lemma printed_warned (ws : list string) : printed (Warned <$> ws) = [].
Proof. induction ws; [done|]. by csimpl. Qed.

Lemma matches_le (y_true y_pred : Labels) : (matches y_true y_pred ≤ length y_true)%nat.
Proof.
  unfold matches. etrans; [apply length_filter|].
  rewrite length_zip_with. lia.
Qed.

(** [accuracy_score] raises exactly on vectors of different lengths; on
    non-empty vectors of one length it returns a fraction between 0 and
    1. *)
Lemma accuracy_score_inv (y_true y_pred : Labels) ws r :
  accuracy_score y_true y_pred = (ws, r) →
  match r with
  | inl _ => length y_true ≠ length y_pred
  | inr v => length y_true = length y_pred ∧ (y_true ≠ [] → unit_interval v)
  end.
Proof.
  unfold accuracy_score. destruct (decide _) as [Hlen|Hlen].
  - destruct (length y_true) as [|n] eqn:Hn.
    + intros [= <- <-]. split; [done|]. by destruct y_true.
    + intros [= <- <-]. split; [done|]. intros _. simpl.
      pose proof (matches_le y_true y_pred) as Hm. rewrite Hn in Hm.
      unfold Qle; simpl. lia.
  - by intros [= <- <-].
Qed.

End Outputs.

(** ** Exceptions *)

Section Halting.

Context {Model : Type} (L : Library Model) (HL : Contract L).

Lemma predictions_agree e1 m1 e2 m2 X ws1 ws2 y1 y2 (y_true : Labels) ws3 ws4 v ex :
  predict L e1 m1 X = (ws1, inr y1) →
  predict L e2 m2 X = (ws2, inr y2) →
  accuracy_score y_true y1 = (ws3, inr v) →
  accuracy_score y_true y2 = (ws4, inl ex) →
  False.
Proof.
  intros H1%(predict_length L HL) H2%(predict_length L HL)
    [H3 _]%accuracy_score_inv H4%accuracy_score_inv. simpl in *. congruence.
Qed.

Ltac all_returned :=
  cbn [app]; repeat (apply List.Forall_cons; [reflexivity|]); apply List.Forall_nil.

Lemma halting_wp (c : Cell) (g : gmap string (Value Model)) :
  wp (code L c) g [] [] (λ res _ out ev,
    match res with
    | Ok _ => Forall returned ev
    | Raise e =>
        printed out = [] ∧
        (Forall returned ev ∨
         ∃ ev0 call, ev = ev0 ++ [(call, Raised e)] ∧ Forall returned ev0)
    end).
Proof.
  destruct c; unfold code.
  all: wp_run.
  all: try match goal with
       | H1 : accuracy_score ?yt ?y1 = (_, inr _),
         H2 : accuracy_score ?yt ?y2 = (_, inl _),
         P1 : predict L _ _ ?X = (_, inr ?y1),
         P2 : predict L _ _ ?X = (_, inr ?y2) |- _ =>
           exfalso; exact (predictions_agree _ _ _ _ _ _ _ _ _ _ _ _ _ _ P1 P2 H1 H2)
       end.
  all: lazymatch goal with
       | |- Forall _ _ => all_returned
       | |- _ ∧ _ =>
           split;
           [ by rewrite ?printed_app, ?printed_warned
           | first [ left; all_returned
                   | right; eexists _, _; split; [reflexivity|]; all_returned ] ]
       end.
Qed.

End Halting.

(** C8.  No cell catches anything.  When a library call of a cell raises
    an exception, the run of the cell ends with that very exception, the
    raising call is the last call the cell made, and the cell has printed
    no accuracy line. *)
Theorem library_exception_propagates {Model} (L : Library Model) (HL : Contract L)
    (c : Cell) (g : gmap string (Value Model)) (call : Call Model) (e : Exn) :
  (call, Raised e) ∈ events (code L c g) →
  result (code L c g) = Raise e ∧
  last (events (code L c g)) = Some (call, Raised e) ∧
  printed (outputs (code L c g)) = [].
Proof.
  intros Hin. pose proof (halting_wp L HL c g) as H. unfold wp in H. simpl in H.
  destruct (result (code L c g)) as [[]|e0].
  - eapply Forall_forall in H; [|exact Hin]. discriminate H.
  - destruct H as [Hout [H|(ev0 & call0 & Hev & H)]].
    + eapply Forall_forall in H; [|exact Hin]. discriminate H.
    + rewrite Hev in Hin |- *. apply elem_of_app in Hin as [Hin|Hin].
      * eapply Forall_forall in H; [|exact Hin]. discriminate H.
      * apply list_elem_of_singleton in Hin as [= -> ->].
        by rewrite last_snoc.
Qed.

(** ** The 80/20 split *)

Section Split.

Lemma ceil_fifth (n : nat) :
  (n ≤ 5 * Z.to_nat (Qceiling ((2 # 10) * inject_Z (Z.of_nat n))) < n + 5)%nat.
Proof.
  unfold Qceiling, Qfloor, Qopp, Qmult, inject_Z. cbn [Qnum Qden].
  change (Z.pos (10 * 1)) with 10.
  pose proof (Z.div_mod (- (2 * Z.of_nat n)) 10 ltac:(lia)).
  pose proof (Z.mod_pos_bound (- (2 * Z.of_nat n)) 10 ltac:(lia)).
  lia.
Qed.

Lemma take_rows_length {A} (a : list A) idx rows :
  take_rows a idx = Some rows → length rows = length idx.
Proof. intros H. symmetry. by eapply length_mapM. Qed.

(** Under a generator that draws permutations, a split that returns has
    partitioned the rows. *)
Lemma train_test_split_partitions (rng : Z → nat → list nat) X y seed
    X_train X_test y_train y_test :
  (∀ n, rng seed n ≡ₚ seq 0 n) →
  train_test_split rng X y (2 # 10) seed = inr (X_train, X_test, y_train, y_test) →
  partitions X y X_train X_test y_train y_test.
Proof.
  intros Hperm. unfold train_test_split.
  pose proof (ceil_fifth (length X)) as Hceil.
  set (n_test := Z.to_nat (Qceiling ((2 # 10) * inject_Z (Z.of_nat (length X))))) in *.
  destruct (decide (length y = length X)) as [Hy|]; [|done].
  destruct (decide ((length X - n_test)%nat = 0%nat)) as [|Hn]; [done|].
  assert (length (rng seed (length X)) = length X) as Hlen.
  { rewrite (Permutation_length (Hperm _)). apply length_seq. }
  rewrite (take_ge (drop n_test _)) by (rewrite length_drop; lia).
  set (ind_test := take n_test (rng seed (length X))).
  set (ind_train := drop n_test (rng seed (length X))).
  destruct (take_rows X ind_train) as [Xtr|] eqn:HXtr; [|done].
  destruct (take_rows X ind_test) as [Xte|] eqn:HXte; [|done].
  destruct (take_rows y ind_train) as [ytr|] eqn:Hytr; [|done].
  destruct (take_rows y ind_test) as [yte|] eqn:Hyte; [|done].
  intros [= <- <- <- <-].
  exists ind_train, ind_test. subst ind_train ind_test.
  rewrite take_drop.
  apply take_rows_length in HXtr as HlenXtr. apply take_rows_length in HXte as HlenXte.
  rewrite length_drop in HlenXtr. rewrite length_take in HlenXte.
  repeat split; try done; lia.
Qed.

(** The test part is one fifth of the rows exactly when the number of
    rows is a multiple of five. *)
Lemma partitions_exact_fifth X y X_train X_test y_train y_test :
  partitions X y X_train X_test y_train y_test →
  exact_fifth X X_test ↔ ∃ k, length X = (5 * k)%nat.
Proof.
  intros (? & ? & _ & _ & _ & _ & _ & _ & ? & _). unfold exact_fifth. split.
  - intros ?. exists (length X_test). lia.
  - intros [k ?]. lia.
Qed.

(** The accuracies recorded in the ensemble-learning notebook are, to
    fifteen digits, fractions over the test sizes that rounding up gives
    for tables of 1797, 178 and 442 rows: 340/360, 33/36 and 67/89. *)
Example recorded_accuracies_over_test_sizes :
  (Qabs ((9444444444444444 # 10000000000000000) - (340 # 360)) < 1 # 1000000000000000)%Q ∧
  (Qabs ((9166666666666666 # 10000000000000000) - (33 # 36)) < 1 # 1000000000000000)%Q ∧
  (Qabs ((7528089887640449 # 10000000000000000) - (67 # 89)) < 1 # 1000000000000000)%Q.
Proof. repeat split; reflexivity. Qed.

Lemma take_rows_is_Some {A} (a : list A) idx :
  Forall (λ i, (i < length a)%nat) idx → is_Some (take_rows a idx).
Proof.
  intros H. apply mapM_is_Some_2. eapply Forall_impl; [exact H|].
  intros i Hi. by apply lookup_lt_is_Some.
Qed.

(** The split raises only on arrays of different lengths or on fewer than
    two rows. *)
Lemma train_test_split_returns (rng : Z → nat → list nat) X y seed :
  (∀ n, rng seed n ≡ₚ seq 0 n) →
  length y = length X → (2 ≤ length X)%nat →
  ∃ parts, train_test_split rng X y (2 # 10) seed = inr parts.
Proof.
  intros Hperm Hy Hn. unfold train_test_split.
  pose proof (ceil_fifth (length X)) as Hceil.
  set (n_test := Z.to_nat (Qceiling ((2 # 10) * inject_Z (Z.of_nat (length X))))) in *.
  rewrite decide_True by done. rewrite decide_False by lia.
  assert (Forall (λ i, (i < length X)%nat) (rng seed (length X))) as Hidx.
  { rewrite (Hperm (length X)). apply Forall_forall. intros i Hi%elem_of_seq. lia. }
  set (ind_test := take n_test (rng seed (length X))).
  set (ind_train := take (length X - n_test) (drop n_test (rng seed (length X)))).
  assert (Forall (λ i, (i < length X)%nat) ind_test) as Hte by by apply Forall_take.
  assert (Forall (λ i, (i < length X)%nat) ind_train) as Htr
    by by apply Forall_take, Forall_drop.
  destruct (take_rows_is_Some X ind_train Htr) as [? ->].
  destruct (take_rows_is_Some X ind_test Hte) as [? ->].
  rewrite <- Hy in Htr, Hte.
  destruct (take_rows_is_Some y ind_train Htr) as [? ->].
  destruct (take_rows_is_Some y ind_test Hte) as [? ->].
  by eexists.
Qed.

End Split.

Section SplitCells.

Context {Model : Type} (L : Library Model) (HL : Contract L).

Lemma split_wp (c : Cell) (g : gmap string (Value Model)) :
  wp (code L c) g [] [] (λ _ g' _ ev,
    Forall (λ Xy : Matrix * Labels,
              ∃ X_train X_test y_train y_test,
                g' !! "X_train" = Some (VMatrix X_train) ∧
                g' !! "X_test" = Some (VMatrix X_test) ∧
                g' !! "y_train" = Some (VLabels y_train) ∧
                g' !! "y_test" = Some (VLabels y_test) ∧
                partitions Xy.1 Xy.2 X_train X_test y_train y_test)
      (split_calls ev)).
Proof.
  destruct c; unfold code.
  all: wp_run.
  all: cbn [app split_calls omap list_omap].
  all: try apply List.Forall_nil.
  all: apply List.Forall_cons; [|apply List.Forall_nil].
  all: match goal with
       | H : ([], train_test_split _ _ _ _ _) = (_, inr _) |- _ =>
           injection H as _ H;
           apply (train_test_split_partitions _ _ _ _ _ _ _ _ (permutation_perm L HL 42)) in H
       end.
  all: do 4 eexists; rewrite !lookup_bound_spec;
       lazy beta iota delta [lookup_bound assoc String.eqb Ascii.eqb Bool.eqb].
  all: repeat (split; [reflexivity|]); assumption.
Qed.

End SplitCells.

Lemma baseline_contract (fit_fails warns : bool) : Contract (baseline fit_fails warns).
Proof.
  split.
  - intros seed n. apply reverse_Permutation.
  - intros e m X ws y [= _ <-]. apply length_fmap.
Qed.

(** C6, as amended.  Under a generator that draws permutations, every
    [train_test_split] call of a cell that returns leaves [X_train],
    [X_test], [y_train] and [y_test] bound to a partition of the rows it
    was given: the test rows and the train rows are selected by the two
    parts of one rearrangement of all row indices, with the same indices
    for features and labels.  The test part has [ceil(n / 5)] of the [n]
    rows, the train part the others, and the train part is not empty. *)
Theorem split_partitions_rows {Model} (L : Library Model) (HL : Contract L)
    (c : Cell) (g : gmap string (Value Model)) (X : Matrix) (y : Labels) :
  (call_train_test_split X y, Returned) ∈ events (code L c g) →
  ∃ X_train X_test y_train y_test,
    namespace (code L c g) !! "X_train" = Some (VMatrix X_train) ∧
    namespace (code L c g) !! "X_test" = Some (VMatrix X_test) ∧
    namespace (code L c g) !! "y_train" = Some (VLabels y_train) ∧
    namespace (code L c g) !! "y_test" = Some (VLabels y_test) ∧
    partitions X y X_train X_test y_train y_test.
Proof.
  intros Hin. pose proof (split_wp L HL c g) as H. unfold wp in H. simpl in H.
  rewrite Forall_forall in H. apply (H (X, y)).
  apply list_elem_of_omap. by exists (call_train_test_split X y, Returned).
Qed.

Lemma split_partitions_rows_witness :
  ∃ X_train X_test y_train y_test,
    namespace (code (baseline false false) adaboost ∅) !! "X_train" = Some (VMatrix X_train) ∧
    namespace (code (baseline false false) adaboost ∅) !! "X_test" = Some (VMatrix X_test) ∧
    namespace (code (baseline false false) adaboost ∅) !! "y_train" = Some (VLabels y_train) ∧
    namespace (code (baseline false false) adaboost ∅) !! "y_test" = Some (VLabels y_test) ∧
    partitions (table 178 13) (cyclic_labels 3 178) X_train X_test y_train y_test.
Proof.
  apply (split_partitions_rows (baseline false false) (baseline_contract false false) adaboost ∅).
  apply list_elem_of_lookup_2 with 1%nat. vm_compute. reflexivity.
Defined.

(** On 1000 rows the split is 800 / 200. *)
Example split_1000 X y X_train X_test y_train y_test :
  partitions X y X_train X_test y_train y_test → length X = 1000%nat →
  length X_test = 200%nat ∧ length X_train = 800%nat.
Proof. intros (? & ? & ? & ? & ? & ? & ? & ? & ? & ? & ?) ?. lia. Qed.

(** The test part is not one fifth of the rows when the number of rows is
    not a multiple of five: of a table of 178 rows, the size of the wine
    table, the AdaBoost cell holds out 36. *)
Lemma adaboost_test_part_not_a_fifth :
  ∃ X X_test,
    namespace (code (baseline false false) adaboost ∅) !! "X" = Some (VMatrix X) ∧
    namespace (code (baseline false false) adaboost ∅) !! "X_test" = Some (VMatrix X_test) ∧
    length X = 178%nat ∧ length X_test = 36%nat ∧ ¬ exact_fifth X X_test.
Proof.
  eexists _, _. split; [vm_compute; reflexivity|]. split; [vm_compute; reflexivity|].
  split; [reflexivity|]. split; [reflexivity|]. unfold exact_fifth. vm_compute. lia.
Qed.

(** ** Accuracy lines *)

Section AccuracyLines.

Context {Model : Type} (L : Library Model) (HL : Contract L).

Lemma partitions_test_nonempty X y X_train X_test (y_train y_test : Labels) :
  partitions X y X_train X_test y_train y_test → y_test ≠ [].
Proof.
  intros (ind_train & ind_test & _ & _ & HX%take_rows_length & _ & Hy%take_rows_length
          & _ & ? & ? & ?).
  intros ->. simpl in *. lia.
Qed.

Lemma split_test_nonempty X y ws (X_train X_test : Matrix) (y_train y_test : Labels) :
  (@nil string, train_test_split (permutation L) X y (2 # 10) 42)
    = (ws, inr (X_train, X_test, y_train, y_test)) →
  y_test ≠ [].
Proof.
  intros [= _ H]. eapply partitions_test_nonempty, train_test_split_partitions; [|exact H].
  apply (permutation_perm L HL).
Qed.

Lemma scores_app (ev1 ev2 : list (Event Model)) :
  scores (ev1 ++ ev2) = scores ev1 ++ scores ev2.
Proof. apply omap_app. Qed.

(** A cell that finds the labels of a non-empty test part, or makes its
    own split, leaves such labels behind when it runs to its end, and has
    then printed its labels with the accuracies it computed. *)
Lemma cell_wp (c : Cell) (g : gmap string (Value Model)) :
  (splits c = false → test_labels_bound g) →
  wp (code L c) g [] [] (λ res g' out ev,
    res = Ok tt →
    test_labels_bound g' ∧
    printed out = zip (labels c) (scores ev) ∧
    length (scores ev) = length (labels c) ∧
    Forall unit_interval (scores ev)).
Proof.
  intros Hg.
  assert (splits c = true ∨ ∃ y_test : Labels,
            g !! "y_test" = Some (VLabels y_test) ∧ y_test ≠ []) as [Hc|(y_test & Hy & Hne)].
  { destruct (splits c) eqn:Hc; [by left|right]. by apply Hg. }
  1: destruct c; try discriminate Hc; clear Hg Hc; unfold code.
  5: destruct c; unfold code.
  all: wp_run.
  all: try discriminate.
  all: intros _; cbn [app scores omap list_omap].
  all: repeat match goal with
       | H : accuracy_score _ _ = (_, inr _) |- _ =>
           rewrite H; cbn [snd];
           apply accuracy_score_inv in H as [_ H]
       end.
  all: repeat match goal with
       | H : ([], train_test_split _ _ _ _ _) = _ |- _ =>
           apply split_test_nonempty in H
       end.
  all: rewrite ?printed_app, ?printed_warned;
       cbn [app printed omap list_omap labels zip_with length].
  all: split;
       [ eexists; rewrite lookup_bound_spec;
         lazy beta iota delta [lookup_bound assoc String.eqb Ascii.eqb Bool.eqb];
         split; [first [reflexivity|eassumption]|assumption]
       | split; [reflexivity|split; [reflexivity|]] ].
  all: repeat (apply List.Forall_cons; [|]); try apply List.Forall_nil.
  all: match goal with
       | H : _ → unit_interval ?v |- unit_interval ?v => apply H; assumption
       end.
Qed.

Lemma run_cells_wp (cs : list Cell) (g : gmap string (Value Model)) :
  test_labels_bound g ∨ (∃ c cs', cs = c :: cs' ∧ splits c = true) →
  result (run_cells L cs g) = Ok tt →
  printed (outputs (run_cells L cs g))
    = zip (concat (labels <$> cs)) (scores (events (run_cells L cs g))) ∧
  length (scores (events (run_cells L cs g))) = length (concat (labels <$> cs)) ∧
  Forall unit_interval (scores (events (run_cells L cs g))).
Proof.
  revert g. induction cs as [|c cs IH]; intros g Hpre; [done|].
  assert (splits c = false → test_labels_bound g) as Hg.
  { intros Hc. destruct Hpre as [|(? & ? & [= <- <-] & ?)]; [done|congruence]. }
  pose proof (cell_wp c g Hg) as Hcell. unfold wp in Hcell. simpl in Hcell.
  change (run_cells L (c :: cs) g) with (bind (code L c) (λ _, run_cells L cs) g).
  unfold bind.
  destruct (code L c g) as [[[]|e] g1 out1 ev1]; simpl in *; [|done].
  destruct Hcell as (Hg1 & Hout1 & Hlen1 & Hunit1); [done|].
  specialize (IH g1 (or_introl Hg1)).
  destruct (run_cells L cs g1) as [res g2 out2 ev2]; simpl in *.
  intros Hres. destruct (IH Hres) as (Hout2 & Hlen2 & Hunit2).
  rewrite printed_app, scores_app, Hout1, Hout2, !length_app, Hlen1, Hlen2.
  split; [|split; [done|by apply Forall_app]].
  symmetry. apply zip_with_app. done.
Qed.

End AccuracyLines.

(** C4 (amended).  When cells are run one after the other, starting with
    a cell that loads and splits its data, and the run reaches its end,
    standard output holds one line per scenario and nothing else: the
    scenario's label paired with the value its [accuracy_score] call
    returned, a number between 0 and 1.  Whatever else reaches the output
    areas is warning text of the libraries on the error stream. *)
Theorem accuracy_lines_on_stdout {Model} (L : Library Model) (HL : Contract L)
    (c : Cell) (cs : list Cell) (g : gmap string (Value Model)) :
  splits c = true →
  result (run_cells L (c :: cs) g) = Ok tt →
  printed (outputs (run_cells L (c :: cs) g))
    = zip (concat (labels <$> c :: cs)) (scores (events (run_cells L (c :: cs) g))) ∧
  length (scores (events (run_cells L (c :: cs) g))) = length (concat (labels <$> c :: cs)) ∧
  Forall unit_interval (scores (events (run_cells L (c :: cs) g))).
Proof.
  intros Hc. apply (run_cells_wp L HL). right. by exists c, cs.
Qed.

Lemma accuracy_lines_on_stdout_witness :
  printed (outputs (run_cells (baseline false true) imbalanced_learning ∅))
    = zip (concat (labels <$> imbalanced_learning))
        (scores (events (run_cells (baseline false true) imbalanced_learning ∅))) ∧
  length (scores (events (run_cells (baseline false true) imbalanced_learning ∅)))
    = length (concat (labels <$> imbalanced_learning)) ∧
  Forall unit_interval (scores (events (run_cells (baseline false true) imbalanced_learning ∅))).
Proof.
  apply (accuracy_lines_on_stdout (baseline false true) (baseline_contract false true)
           dataset
           [cluster_centroids; tomek_links; smote; smote_enn; smote_adasyn;
            class_weighting; cost_sensitive; one_class_svm; isolation_forest] ∅).
  - reflexivity.
  - vm_compute. reflexivity.
Defined.

(** With a library that warns the way scikit-learn did in the recorded
    run, the output area of the cluster-centroids cell holds the warning
    and then the accuracy line. *)
Example cluster_centroids_output :
  outputs (run_cells (baseline false true) [dataset; cluster_centroids] ∅)
  = [Warned "FutureWarning: The default value of `n_init` will change from 10 to 'auto' in 1.4.";
     Printed "Accuracy after under-sampling:" (Finite (198 # 200))].
Proof. vm_compute. reflexivity. Qed.

(** The output area recorded for the cluster-centroids cell is not a
    single accuracy line: a [FutureWarning] of scikit-learn precedes it. *)
Lemma recorded_cluster_centroids_warns :
  ¬ only_accuracy_lines cluster_centroids (recorded cluster_centroids).
Proof.
  intros (vs & H & _). destruct vs as [|v vs]; [discriminate H|].
  simpl in H. discriminate H.
Qed.

(** The lines recorded in the two notebook files carry the labels of the
    cells, and every recorded accuracy is between 0 and 1. *)
Lemma recorded_lines (c : Cell) :
  (printed (recorded c)).*1 = labels c ∧
  Forall unit_interval (printed (recorded c)).*2.
Proof.
  destruct c; (split; [reflexivity|]); cbn;
    repeat (apply List.Forall_cons; [split; discriminate|]); apply List.Forall_nil.
Qed.

Lemma library_exception_propagates_witness :
  result (code (baseline true false) tomek_links small_split)
    = Raise (LibraryError "fit failed") ∧
  last (events (code (baseline true false) tomek_links small_split))
    = Some (call_fit (RandomForestClassifier None 42) [[1%Q]; [2%Q]; [3%Q]] (Some [0; 0; 1]),
            Raised (LibraryError "fit failed")) ∧
  printed (outputs (code (baseline true false) tomek_links small_split)) = [].
Proof.
  apply (library_exception_propagates (baseline true false) (baseline_contract true false)
           tomek_links small_split).
  apply list_elem_of_lookup_2 with 1%nat. vm_compute. reflexivity.
Defined.

(** ** Cells that compute on arrays *)

Section ArrayCells.

Context {Model : Type} (L : Library Model).

(** The decision tree of the class-weighting cell is fitted with the
    dictionary of raw class counts of [y_train] as its class weights. *)
Lemma class_weighting_fits_with_counts (g : gmap string (Value Model)) e X y o :
  (call_fit e X y, o) ∈ events (code L class_weighting g) →
  ∃ y_train cw,
    g !! "y_train" = Some (VLabels y_train) ∧
    class_weight y_train = inr cw ∧
    e = DecisionTreeClassifier None (Some (inject_Z <$> cw)) 42.
Proof.
  enough (wp (code L class_weighting) g [] [] (λ _ _ _ ev,
            Forall (λ ev : Event Model,
                      match ev.1 with
                      | call_fit e _ _ =>
                          ∃ y_train cw,
                            g !! "y_train" = Some (VLabels y_train) ∧
                            class_weight y_train = inr cw ∧
                            e = DecisionTreeClassifier None (Some (inject_Z <$> cw)) 42
                      | _ => True
                      end) ev)) as H.
  { intros Hin. unfold wp in H. simpl in H.
    rewrite Forall_forall in H. exact (H _ Hin). }
  unfold code. wp_run.
  all: cbn [app]; repeat (apply List.Forall_cons; [|]); try apply List.Forall_nil.
  all: cbn [fst]; try exact I.
  all: by eexists _, _.
Qed.

(** When an anomaly-detection cell runs to its end, [y_pred] is bound to
    the relabelled predictions of its estimator. *)
Lemma anomaly_cells_relabel (c : Cell) (g : gmap string (Value Model)) :
  c = one_class_svm ∨ c = isolation_forest →
  result (code L c g) = Ok tt →
  ∃ e m X ws y y',
    predict L e m X = (ws, inr y) ∧
    relabel_anomalies y = inr y' ∧
    namespace (code L c g) !! "y_pred" = Some (VLabels y').
Proof.
  intros Hc.
  enough (wp (code L c) g [] [] (λ res g' _ _,
            res = Ok tt →
            ∃ e m X ws y y',
              predict L e m X = (ws, inr y) ∧
              relabel_anomalies y = inr y' ∧
              g' !! "y_pred" = Some (VLabels y'))) as H by exact H.
  destruct Hc as [-> | ->]; unfold code.
  all: wp_run.
  all: try discriminate.
  all: intros _; do 6 eexists; split; [eassumption|].
  all: rewrite lookup_bound_spec;
       lazy beta iota delta [lookup_bound assoc String.eqb Ascii.eqb Bool.eqb].
  all: split; [|reflexivity].
  all: unfold relabel_anomalies;
       repeat match goal with
       | H : np.setitem_mask _ _ _ = inr _ |- _ => rewrite H; clear H
       end; reflexivity.
Qed.

End ArrayCells.

(** ** What the scenario cells print *)

(** Replaces the library calls of the goal by what they returned on the
    path at hand. *)
Ltac use_calls :=
  repeat match goal with
  | H : (@nil string, ?call) = (_, ?r) |- _ =>
      assert (call = r) by (by injection H); clear H
  end;
  repeat (progress (repeat match goal with
                    | H : ?lhs = _ |- context [?lhs] => rewrite H
                    end; simpl)).

Section ScenarioScores.

Context {Model : Type} (L : Library Model).

Lemma resampling_wp (c : Cell) (s : Sampler) (g : gmap string (Value Model))
    X_train y_train X_test y_test :
  sampler_of c = Some s →
  g !! "X_train" = Some (VMatrix X_train) → g !! "y_train" = Some (VLabels y_train) →
  g !! "X_test" = Some (VMatrix X_test) → g !! "y_test" = Some (VLabels y_test) →
  wp (code L c) g [] [] (λ res _ out _,
    match resample_score L s X_train y_train X_test y_test with
    | Some acc => res = Ok tt ∧ printed out = (λ l, (l, acc)) <$> labels c
    | None => (∃ e, res = Raise e) ∧ printed out = []
    end).
Proof.
  intros Hs HXtr Hytr HXte Hyte.
  destruct c; try discriminate Hs; injection Hs as <-; unfold code.
  all: wp_run.
  all: unfold resample_score, fit_predict_score, returned_value; use_calls.
  all: rewrite ?printed_app, ?printed_warned; eauto.
Qed.

Lemma smote_adasyn_wp (g : gmap string (Value Model)) X_train y_train X_test y_test :
  g !! "X_train" = Some (VMatrix X_train) → g !! "y_train" = Some (VLabels y_train) →
  g !! "X_test" = Some (VMatrix X_test) → g !! "y_test" = Some (VLabels y_test) →
  wp (code L smote_adasyn) g [] [] (λ res _ out _,
    match resample_score L (SMOTE 42) X_train y_train X_test y_test,
          resample_score L (ADASYN 42) X_train y_train X_test y_test with
    | Some acc_smote, Some acc_adasyn =>
        res = Ok tt ∧
        printed out = [("Accuracy after SMOTE over-sampling:", acc_smote);
                       ("Accuracy after ADASYN over-sampling:", acc_adasyn)]
    | _, _ => ∃ e, res = Raise e
    end).
Proof.
  intros HXtr Hytr HXte Hyte. unfold code.
  wp_run.
  all: unfold resample_score, fit_predict_score, returned_value; use_calls.
  all: repeat case_match; simplify_eq; eauto.
  all: by rewrite ?printed_app, ?printed_warned.
Qed.


Lemma anomaly_wp (c : Cell) (est : Estimator) (g : gmap string (Value Model))
    X_train y_train X_test y_test :
  detector_of c = Some est →
  g !! "X_train" = Some (VMatrix X_train) → g !! "y_train" = Some (VLabels y_train) →
  g !! "X_test" = Some (VMatrix X_test) → g !! "y_test" = Some (VLabels y_test) →
  wp (code L c) g [] [] (λ res _ out _,
    match anomaly_score L est X_train y_train X_test y_test with
    | Some acc => res = Ok tt ∧ printed out = (λ l, (l, acc)) <$> labels c
    | None => (∃ e, res = Raise e) ∧ printed out = []
    end).
Proof.
  intros Hest HXtr Hytr HXte Hyte.
  destruct c; try discriminate Hest; injection Hest as <-; unfold code.
  all: wp_run.
  all: unfold anomaly_score, relabel_anomalies, returned_value, no_error; use_calls.
  all: rewrite ?printed_app, ?printed_warned; eauto.
Qed.

Lemma ensemble_wp (c : Cell) (g : gmap string (Value Model)) :
  c = bagging ∨ c = adaboost ∨ c = stacking →
  wp (code L c) g [] [] (λ res _ out _,
    match ensemble_score L c with
    | Some acc => res = Ok tt ∧ printed out = (λ l, (l, acc)) <$> labels c
    | None => (∃ e, res = Raise e) ∧ printed out = []
    end).
Proof.
  intros [-> | [-> | ->]]; unfold code.
  all: wp_run.
  all: unfold ensemble_score, split_score, fit_predict_score, returned_value, no_error;
       use_calls.
  all: rewrite ?printed_app, ?printed_warned; eauto.
Qed.

End ScenarioScores.

(** X1.  A resampling cell with one scenario prints the accuracy of a random
    forest fitted on the resampled training partition and scored on the
    test partition it found.  It runs to its end exactly when the
    resampler, [fit], [predict] and [accuracy_score] all return; otherwise
    it raises and prints nothing. *)
Theorem resampling_cell_score {Model} (L : Library Model) (c : Cell) (s : Sampler)
    (g : gmap string (Value Model)) X_train y_train X_test y_test :
  sampler_of c = Some s →
  g !! "X_train" = Some (VMatrix X_train) → g !! "y_train" = Some (VLabels y_train) →
  g !! "X_test" = Some (VMatrix X_test) → g !! "y_test" = Some (VLabels y_test) →
  match resample_score L s X_train y_train X_test y_test with
  | Some acc =>
      result (code L c g) = Ok tt ∧
      printed (outputs (code L c g)) = (λ l, (l, acc)) <$> labels c
  | None => (∃ e, result (code L c g) = Raise e) ∧ printed (outputs (code L c g)) = []
  end.
Proof. intros. by apply (resampling_wp L c s g). Qed.

Lemma resampling_cell_score_witness :
  match resample_score (baseline false false) TomekLinks
          [[1%Q]; [2%Q]; [3%Q]] [0; 0; 1] [[4%Q]; [5%Q]] [0; 1] with
  | Some acc =>
      result (code (baseline false false) tomek_links small_split) = Ok tt ∧
      printed (outputs (code (baseline false false) tomek_links small_split))
        = (λ l, (l, acc)) <$> labels tomek_links
  | None =>
      (∃ e, result (code (baseline false false) tomek_links small_split) = Raise e) ∧
      printed (outputs (code (baseline false false) tomek_links small_split)) = []
  end.
Proof.
  apply (resampling_cell_score (baseline false false) tomek_links TomekLinks small_split);
    reflexivity.
Defined.

(** X2.  The cell that compares SMOTE and ADASYN pairs each label with the
    accuracy of its own sampler: the forest scored under the SMOTE label
    is the one fitted on the SMOTE output, and likewise for ADASYN.  The
    cell runs to its end exactly when both pipelines return. *)
Theorem smote_adasyn_cell_scores {Model} (L : Library Model)
    (g : gmap string (Value Model)) X_train y_train X_test y_test :
  g !! "X_train" = Some (VMatrix X_train) → g !! "y_train" = Some (VLabels y_train) →
  g !! "X_test" = Some (VMatrix X_test) → g !! "y_test" = Some (VLabels y_test) →
  match resample_score L (SMOTE 42) X_train y_train X_test y_test,
        resample_score L (ADASYN 42) X_train y_train X_test y_test with
  | Some acc_smote, Some acc_adasyn =>
      result (code L smote_adasyn g) = Ok tt ∧
      printed (outputs (code L smote_adasyn g))
        = [("Accuracy after SMOTE over-sampling:", acc_smote);
           ("Accuracy after ADASYN over-sampling:", acc_adasyn)]
  | _, _ => ∃ e, result (code L smote_adasyn g) = Raise e
  end.
Proof. intros. by apply (smote_adasyn_wp L g). Qed.

Lemma smote_adasyn_cell_scores_witness :
  match resample_score (baseline false false) (SMOTE 42)
          [[1%Q]; [2%Q]; [3%Q]] [0; 0; 1] [[4%Q]; [5%Q]] [0; 1],
        resample_score (baseline false false) (ADASYN 42)
          [[1%Q]; [2%Q]; [3%Q]] [0; 0; 1] [[4%Q]; [5%Q]] [0; 1] with
  | Some acc_smote, Some acc_adasyn =>
      result (code (baseline false false) smote_adasyn small_split) = Ok tt ∧
      printed (outputs (code (baseline false false) smote_adasyn small_split))
        = [("Accuracy after SMOTE over-sampling:", acc_smote);
           ("Accuracy after ADASYN over-sampling:", acc_adasyn)]
  | _, _ => ∃ e, result (code (baseline false false) smote_adasyn small_split) = Raise e
  end.
Proof.
  apply (smote_adasyn_cell_scores (baseline false false) small_split); reflexivity.
Defined.



(** X4.  An anomaly-detection cell fits its detector, without labels, on the
    training rows selected by [~(y_train == 1)], relabels the predictions
    on the test rows and prints their accuracy against the test labels. *)
Theorem anomaly_cell_score {Model} (L : Library Model) (c : Cell) (est : Estimator)
    (g : gmap string (Value Model)) X_train y_train X_test y_test :
  detector_of c = Some est →
  g !! "X_train" = Some (VMatrix X_train) → g !! "y_train" = Some (VLabels y_train) →
  g !! "X_test" = Some (VMatrix X_test) → g !! "y_test" = Some (VLabels y_test) →
  match anomaly_score L est X_train y_train X_test y_test with
  | Some acc =>
      result (code L c g) = Ok tt ∧
      printed (outputs (code L c g)) = (λ l, (l, acc)) <$> labels c
  | None => (∃ e, result (code L c g) = Raise e) ∧ printed (outputs (code L c g)) = []
  end.
Proof. intros. by apply (anomaly_wp L c est g). Qed.

Lemma anomaly_cell_score_witness :
  match anomaly_score (baseline false false) IsolationForest
          [[1%Q]; [2%Q]; [3%Q]] [0; 0; 1] [[4%Q]; [5%Q]] [0; 1] with
  | Some acc =>
      result (code (baseline false false) isolation_forest small_split) = Ok tt ∧
      printed (outputs (code (baseline false false) isolation_forest small_split))
        = (λ l, (l, acc)) <$> labels isolation_forest
  | None =>
      (∃ e, result (code (baseline false false) isolation_forest small_split) = Raise e) ∧
      printed (outputs (code (baseline false false) isolation_forest small_split)) = []
  end.
Proof.
  apply (anomaly_cell_score (baseline false false) isolation_forest IsolationForest
           small_split); reflexivity.
Defined.

(** X5.  A cell of the ensemble-learning notebook loads its table, splits it,
    fits the ensemble on the train part and prints its accuracy on the
    test part, whatever the namespace held before.  The stacking cell
    splits and scores the binarized target, not the raw one. *)
Theorem ensemble_cell_score {Model} (L : Library Model) (c : Cell)
    (g : gmap string (Value Model)) :
  c = bagging ∨ c = adaboost ∨ c = stacking →
  match ensemble_score L c with
  | Some acc =>
      result (code L c g) = Ok tt ∧
      printed (outputs (code L c g)) = (λ l, (l, acc)) <$> labels c
  | None => (∃ e, result (code L c g) = Raise e) ∧ printed (outputs (code L c g)) = []
  end.
Proof. intros. by apply (ensemble_wp L c g). Qed.

Lemma ensemble_cell_score_witness :
  match ensemble_score (baseline false false) stacking with
  | Some acc =>
      result (code (baseline false false) stacking used_kernel) = Ok tt ∧
      printed (outputs (code (baseline false false) stacking used_kernel))
        = (λ l, (l, acc)) <$> labels stacking
  | None =>
      (∃ e, result (code (baseline false false) stacking used_kernel) = Raise e) ∧
      printed (outputs (code (baseline false false) stacking used_kernel)) = []
  end.
Proof.
  apply (ensemble_cell_score (baseline false false) stacking used_kernel). by right; right.
Defined.

(** ** What a cell reads *)

Section Reads.

Context {Model : Type} (L : Library Model).

Implicit Types (g : gmap string (Value Model)) (R : list string).

Lemma agree_lookup R g1 g2 x : agree R g1 g2 → x ∈ R → g1 !! x = g2 !! x.
Proof. unfold agree. rewrite Forall_forall. auto. Qed.

Lemma agree_subset R T g1 g2 : (∀ x, x ∈ T → x ∈ R) → agree R g1 g2 → agree T g1 g2.
Proof. unfold agree. rewrite !Forall_forall. auto. Qed.

Lemma dep_pre {A} R T R' (m : Py Model A) :
  (∀ x, x ∈ R → x ∈ T) → depends_only R R' m → depends_only T R' m.
Proof. intros Hsub Hm g1 g2 Hg. apply Hm. by eapply agree_subset. Qed.

Lemma dep_post {A} R R' T' (m : Py Model A) :
  (∀ x, x ∈ T' → x ∈ R') → depends_only R R' m → depends_only R T' m.
Proof.
  intros Hsub Hm g1 g2 Hg. destruct (Hm g1 g2 Hg) as (? & ? & ? & Hpost).
  repeat split; try done. intros a Ha. eapply agree_subset; eauto.
Qed.

Lemma dep_ret {A} R (a : A) : depends_only (Model := Model) R R (ret a : Py Model A).
Proof. intros g1 g2 Hg. by repeat split. Qed.

Lemma dep_raise {A} R R' e : depends_only (Model := Model) R R' (raise e : Py Model A).
Proof. intros g1 g2 Hg. by repeat split. Qed.

Lemma dep_bind {A B} R R1 R2 (m : Py Model A) (f : A → Py Model B) :
  depends_only R R1 m → (∀ a, depends_only R1 R2 (f a)) →
  depends_only R R2 (bind m f).
Proof.
  intros Hm Hf g1 g2 Hg. destruct (Hm g1 g2 Hg) as (Hres & Hout & Hev & Hpost).
  unfold bind.
  destruct (m g1) as [[a|e] n1 o1 e1], (m g2) as [[a'|e'] n2 o2 e2];
    simpl in *; simplify_eq; [|done].
  destruct (Hf a' n1 n2 (Hpost _ eq_refl)) as (Hres' & Hout' & Hev' & Hpost').
  destruct (f a' n1) as [r1 n1' o1' e1'], (f a' n2) as [r2 n2' o2' e2'];
    simpl in *; simplify_eq. done.
Qed.

Lemma dep_load R x : x ∈ R → depends_only (Model := Model) R R (load x).
Proof.
  intros Hx g1 g2 Hg. unfold load. rewrite (agree_lookup _ _ _ _ Hg Hx).
  destruct (g2 !! x); simpl; repeat split; try done.
Qed.

Lemma dep_assign R x v : depends_only (Model := Model) R (x :: R) (assign x v).
Proof.
  intros g1 g2 Hg. unfold assign; simpl. repeat split; try done.
  intros _ _. apply Forall_cons. split.
  - by rewrite !lookup_insert_eq.
  - unfold agree in *. rewrite Forall_forall in Hg |- *. intros y Hy.
    destruct (decide (x = y)) as [->|].
    + by rewrite !lookup_insert_eq.
    + rewrite !lookup_insert_ne by done. auto.
Qed.

Lemma dep_extern {A} R c (r : Lib A) : depends_only (Model := Model) R R (extern c r).
Proof. intros g1 g2 Hg. unfold extern. destruct r.2; simpl; by repeat split. Qed.

Lemma dep_numpy {A} R expr (r : Exn + A) : depends_only (Model := Model) R R (numpy expr r).
Proof. apply dep_extern. Qed.

Ltac dep_read :=
  intros Hx; eapply dep_bind; [by apply dep_load|];
  intros []; first [apply dep_ret | apply dep_raise].

Lemma dep_load_matrix R x : x ∈ R → depends_only (Model := Model) R R (load_matrix x).
Proof. unfold load_matrix. dep_read. Qed.
Lemma dep_load_labels R x : x ∈ R → depends_only (Model := Model) R R (load_labels x).
Proof. unfold load_labels. dep_read. Qed.
Lemma dep_load_targets R x : x ∈ R → depends_only (Model := Model) R R (load_targets x).
Proof. unfold load_targets. dep_read. Qed.
Lemma dep_load_mask R x : x ∈ R → depends_only (Model := Model) R R (load_mask x).
Proof. unfold load_mask. dep_read. Qed.
Lemma dep_load_float R x : x ∈ R → depends_only (Model := Model) R R (load_float x).
Proof. unfold load_float. dep_read. Qed.
Lemma dep_load_dict R x : x ∈ R → depends_only (Model := Model) R R (load_dict x).
Proof. unfold load_dict. dep_read. Qed.
Lemma dep_load_bunch R x : x ∈ R → depends_only (Model := Model) R R (load_bunch x).
Proof. unfold load_bunch. dep_read. Qed.
Lemma dep_load_sampler R x : x ∈ R → depends_only (Model := Model) R R (load_sampler x).
Proof. unfold load_sampler. dep_read. Qed.
Lemma dep_load_estimator R x : x ∈ R → depends_only (Model := Model) R R (load_estimator x).
Proof. unfold load_estimator. dep_read. Qed.
Lemma dep_load_estimators R x : x ∈ R → depends_only (Model := Model) R R (load_estimators x).
Proof. unfold load_estimators. dep_read. Qed.

Lemma dep_print R label x : x ∈ R → depends_only (Model := Model) R R (print label x).
Proof.
  intros Hx. unfold print. eapply dep_bind; [by apply dep_load_float|].
  intros v g1 g2 Hg. by repeat split.
Qed.

End Reads.

(** A name is one of an explicit list. *)
Ltac name_in :=
  apply list_elem_of_In; cbn [In]; repeat first [left; reflexivity | right].

(** Follows the statements of a cell: a read asks for a name already
    known to agree, an assignment adds its name. *)
Ltac dep_step :=
  lazymatch goal with
  | |- depends_only _ _ (bind _ _) => eapply dep_bind; [|intros ?]
  | |- depends_only _ _ (ret _) => apply dep_ret
  | |- depends_only _ _ (assign _ _) => apply dep_assign
  | |- depends_only _ _ (extern _ _) => apply dep_extern
  | |- depends_only _ _ (numpy _ _) => apply dep_numpy
  | |- depends_only _ _ (load_matrix _) => apply dep_load_matrix; name_in
  | |- depends_only _ _ (load_labels _) => apply dep_load_labels; name_in
  | |- depends_only _ _ (load_targets _) => apply dep_load_targets; name_in
  | |- depends_only _ _ (load_mask _) => apply dep_load_mask; name_in
  | |- depends_only _ _ (load_dict _) => apply dep_load_dict; name_in
  | |- depends_only _ _ (load_bunch _) => apply dep_load_bunch; name_in
  | |- depends_only _ _ (load_sampler _) => apply dep_load_sampler; name_in
  | |- depends_only _ _ (load_estimator _) => apply dep_load_estimator; name_in
  | |- depends_only _ _ (load_estimators _) => apply dep_load_estimators; name_in
  | |- depends_only _ _ (print _ _) => apply dep_print; name_in
  | |- depends_only _ _ (let '(_, _) := ?x in _) => destruct x
  | |- depends_only _ _ ?m => let h := head_of m in unfold h
  end; cbv beta iota.

Section CellReads.

Context {Model : Type} (L : Library Model).

(** A cell that does not split reads, of the namespace it is started in,
    only the four names of the split. *)
Lemma scenario_depends (c : Cell) :
  splits c = false → depends_only split_names split_names (code L c).
Proof.
  intros Hc. destruct c; try discriminate Hc.
  all: eapply dep_post; cycle 1;
    [ unfold code, split_names; repeat dep_step
    | intros x Hx; apply list_elem_of_In in Hx; cbn [In split_names] in Hx;
      destruct Hx as [<-|[<-|[<-|[<-|[]]]]]; name_in ].
Qed.

(** A splitting cell reads nothing of the namespace it is started in. *)
Lemma splitting_depends (c : Cell) :
  splits c = true → depends_only [] split_names (code L c).
Proof.
  intros Hc. destruct c; try discriminate Hc.
  all: eapply dep_post; cycle 1;
    [ unfold code; repeat dep_step
    | intros x Hx; apply list_elem_of_In in Hx; cbn [In split_names] in Hx;
      destruct Hx as [<-|[<-|[<-|[<-|[]]]]]; name_in ].
Qed.

Lemma cell_depends (c : Cell) : depends_only split_names split_names (code L c).
Proof.
  destruct (splits c) eqn:Hc.
  - eapply dep_pre; [|by apply splitting_depends]. intros x Hx. inversion Hx.
  - by apply scenario_depends.
Qed.

Lemma run_cells_depends (cs : list Cell) :
  depends_only split_names split_names (run_cells L cs).
Proof.
  induction cs as [|c cs IH]; [apply dep_ret|].
  change (run_cells L (c :: cs)) with (bind (code L c) (λ _, run_cells L cs)).
  eapply dep_bind; [apply cell_depends|]. intros _. exact IH.
Qed.

End CellReads.

Section SplitFrame.

Context {Model : Type} (L : Library Model).

Lemma scenario_frame (c : Cell) (g : gmap string (Value Model)) :
  splits c = false → agree split_names g (namespace (code L c g)).
Proof.
  intros Hc.
  enough (wp (code L c) g [] [] (λ _ g' _ _, agree split_names g g')) as H by exact H.
  destruct c; try discriminate Hc; clear Hc; unfold code.
  all: wp_run.
  all: unfold agree, split_names;
       repeat (apply List.Forall_cons;
               [rewrite lookup_bound_spec;
                lazy beta iota delta [lookup_bound assoc String.eqb Ascii.eqb Bool.eqb];
                reflexivity|]);
       apply List.Forall_nil.
Qed.

End SplitFrame.

(** ** Runs that find the global generator in different states *)

(** The two runs are followed side by side: statements that do not call
    the library are the same code, and a library call returns the same in
    both when the two realisations are alike and the estimator, read off
    the bindings the cell has made, does not depend on the global
    generator. *)

Section Realisations.

Context {Model : Type} (L1 L2 : Library Model) (HL : alike L1 L2).

Lemma same_bind {A B} (m1 m2 : Py Model A) (f1 f2 : A → Py Model B) g Ψ :
  same m1 m2 g (λ res g1,
    match res with
    | Ok a => same (f1 a) (f2 a) g1 Ψ
    | Raise e => Ψ (Raise e) g1
    end) →
  same (bind m1 f1) (bind m2 f2) g Ψ.
Proof.
  intros [Heq H]. unfold same, bind. rewrite <- Heq.
  destruct (m1 g) as [[a|e] g1 out1 ev1]; simpl in *; [|done].
  destruct H as [Hf H]. rewrite <- Hf. by destruct (f1 a g1).
Qed.

Lemma same_refl {A} (m : Py Model A) g Ψ :
  wp m g [] [] (λ res g1 _ _, Ψ res g1) → same m m g Ψ.
Proof. by split. Qed.

Lemma same_extern {A} c (r1 r2 : Lib A) g (Ψ : Res A → gmap string (Value Model) → Prop) :
  r1 = r2 → (∀ a, Ψ (Ok a) g) → (∀ e, Ψ (Raise e) g) →
  same (extern c r1) (extern c r2) g Ψ.
Proof.
  intros <- Hok Herr. split; [done|]. unfold extern.
  destruct r1 as [ws [e|a]]; simpl; auto.
Qed.

Lemma train_test_split_alike X y test_size seed :
  train_test_split (permutation L1) X y test_size seed
    = train_test_split (permutation L2) X y test_size seed.
Proof. unfold train_test_split. by rewrite (alike_permutation _ _ HL). Qed.

(** The two calls return the same. *)
Ltac same_call :=
  first
  [ reflexivity
  | apply (alike_predict _ _ HL)
  | apply (alike_make_classification _ _ HL)
  | apply (alike_load_digits _ _ HL)
  | apply (alike_load_wine _ _ HL)
  | apply (alike_load_diabetes _ _ HL)
  | apply (alike_fit_resample _ _ HL)
  | apply (alike_fit _ _ HL); reflexivity
  | apply (f_equal (pair [])); apply train_test_split_alike
  | match goal with
    | |- match ?m with _ => _ end = _ =>
        destruct m; [apply (alike_predict _ _ HL) | reflexivity]
    end ].

(** One statement of the two runs. *)
Ltac same_step :=
  lazymatch goal with
  | |- True => exact I
  | |- same (bind _ _) (bind _ _) _ _ => apply same_bind
  | |- same (extern _ _) (extern _ _) _ _ =>
      apply same_extern; [same_call | intros ? | intros ?]
  | |- same (let '(_, _) := ?x in _) _ _ _ => destruct x
  | |- same ?m ?m' _ _ =>
      first [ constr_eq m m'; apply same_refl; repeat wp_step
            | let h := head_of m in unfold h ]
  end; cbv beta iota.

(** Under two realisations that are alike, every cell but the one that
    fits [IsolationForest()] runs the same way. *)
Lemma code_alike (c : Cell) g : c ≠ isolation_forest → code L1 c g = code L2 c g.
Proof.
  intros Hc.
  enough (same (code L1 c) (code L2 c) (bound [] g) (λ _ _, True)) as [H _] by exact H.
  destruct c; try done; unfold code.
  all: repeat same_step.
Qed.

End Realisations.

Section Generators.

Context {Model : Type} (W : Generator → Library Model) (HW : seeds_respected W).

Lemma code_worlds (c : Cell) (s1 s2 : Generator) g :
  (c = isolation_forest → s1 = s2) → code (W s1) c g = code (W s2) c g.
Proof.
  intros Hs. destruct c; try (apply code_alike; [apply HW | discriminate]).
  by rewrite (Hs eq_refl).
Qed.

Lemma run_cells_worlds (cs : list Cell) (s1 s2 : Generator) g :
  (isolation_forest ∈ cs → s1 = s2) → run_cells (W s1) cs g = run_cells (W s2) cs g.
Proof.
  revert g. induction cs as [|c cs IH]; intros g Hs; [done|].
  change (run_cells (W s1) (c :: cs)) with (bind (code (W s1) c) (λ _, run_cells (W s1) cs)).
  change (run_cells (W s2) (c :: cs)) with (bind (code (W s2) c) (λ _, run_cells (W s2) cs)).
  unfold bind. rewrite <- (code_worlds c s1 s2 g).
  - destruct (code (W s1) c g) as [[[]|e] g1 out1 ev1]; [|done].
    rewrite (IH g1); [done|]. intros Hin. apply Hs. by right.
  - intros ->. apply Hs. by left.
Qed.

End Generators.

Lemma drawing_respects_seeds : seeds_respected drawing.
Proof.
  intros s1 s2. split; try reflexivity.
  intros e X y He. by destruct e.
Qed.

Lemma split_names_not_local x : x ∈ split_names → x ∉ scenario_locals.
Proof.
  intros Hx. apply list_elem_of_In in Hx. cbn [In split_names] in Hx.
  destruct Hx as [<-|[<-|[<-|[<-|[]]]]]; apply (bool_decide_unpack _); vm_compute; reflexivity.
Qed.

Lemma differ_agree_split {Model} (g1 g2 : gmap string (Value Model)) :
  differ_only_on scenario_locals g1 g2 → agree split_names g1 g2.
Proof.
  intros Hg. apply Forall_forall. intros x Hx. apply Hg. by apply split_names_not_local.
Qed.

(** C1, as amended.  Every cell other than the Isolation Forest cell is
    reproducible: run from the same namespace in two kernels whose global
    generators are in different states, it ends the same way, leaves the
    same namespace, writes the same output, the printed accuracy with it,
    and makes the same library calls.  Every resampler and estimator of
    these cells is given [random_state=42] or computes without random
    draws. *)
Theorem seeded_cells_reproducible {Model} (W : Generator → Library Model) (c : Cell)
    (s1 s2 : Generator) (g : gmap string (Value Model)) :
  seeds_respected W → c ≠ isolation_forest →
  code (W s1) c g = code (W s2) c g.
Proof. intros HW Hc. by apply code_worlds. Qed.

Lemma seeded_cells_reproducible_witness :
  code (drawing 0%N) one_class_svm drawn_split
    = code (drawing 1%N) one_class_svm drawn_split.
Proof.
  apply (seeded_cells_reproducible drawing one_class_svm 0%N 1%N drawn_split).
  - apply drawing_respects_seeds.
  - discriminate.
Defined.

(** The Isolation Forest cell is not: [IsolationForest()] is constructed
    without [random_state], and in a library in which its trees depend
    on the global generator, as scikit-learn documents, two runs of the
    dataset cell and the Isolation Forest cell from the empty kernel
    print different accuracies. *)
Example isolation_forest_not_reproducible :
  seeds_respected drawing ∧
  printed (outputs (run_cells (drawing 0%N) [dataset; isolation_forest] ∅))
    = [("Accuracy with Isolation Forest:", Finite (198 # 200))] ∧
  printed (outputs (run_cells (drawing 1%N) [dataset; isolation_forest] ∅))
    = [("Accuracy with Isolation Forest:", Finite (2 # 200))].
Proof.
  split; [apply drawing_respects_seeds|]. split; vm_compute; reflexivity.
Qed.

(** ** What a cell keeps to itself *)

Section Targets.

Context {Model : Type} (L : Library Model).

Lemma assoc_None (x : string) (kvs : list (string * Value Model)) :
  x ∉ kvs.*1 → assoc x kvs = None.
Proof.
  induction kvs as [|[k v] kvs IH]; intros Hx; [done|]. simpl.
  apply not_elem_of_cons in Hx as [Hk Hx].
  destruct (String.eqb_spec k x) as [->|_]; [done|]. by apply IH.
Qed.

(** A cell rebinds no name but its targets, however it ends. *)
Lemma cell_rebinds_targets (c : Cell) (g : gmap string (Value Model)) (x : string) :
  x ∉ targets c → namespace (code L c g) !! x = g !! x.
Proof.
  intros Hx.
  enough (wp (code L c) g [] [] (λ _ g' _ _, g' !! x = g !! x)) as H by exact H.
  destruct c; unfold code.
  all: wp_run.
  all: rewrite lookup_bound_spec; unfold lookup_bound; rewrite assoc_None; [done|].
  all: intros Hin; apply Hx; apply list_elem_of_In in Hin;
       cbn [In fmap list_fmap fst] in Hin.
  all: repeat (destruct Hin as [<-|Hin]; [apply (bool_decide_unpack _); vm_compute; reflexivity|]).
  all: destruct Hin.
Qed.

End Targets.

(** Two explicit namespaces differ only on listed names. *)
Ltac differ_concrete :=
  let x := fresh "x" in let Hx := fresh "Hx" in
  intros x Hx;
  repeat (rewrite lookup_insert_ne;
          [|intros <-; apply Hx; apply (bool_decide_unpack _); vm_compute; reflexivity]);
  reflexivity.

(** X6.  Of the variables that the scenario cells assign, a cell that does
    not split reads none before assigning it itself: in two kernels that
    differ at most on such variables, and so bind [X_train], [X_test],
    [y_train], [y_test] and every imported name alike, it ends the same
    way, writes the same output and makes the same library calls.  The
    global generators of the two kernels may be in different states,
    except for the Isolation Forest cell, which draws from it. *)
Theorem scenario_reads_only_the_split {Model} (W : Generator → Library Model) (c : Cell)
    (s1 s2 : Generator) (g1 g2 : gmap string (Value Model)) :
  seeds_respected W → splits c = false → (c = isolation_forest → s1 = s2) →
  differ_only_on scenario_locals g1 g2 →
  result (code (W s1) c g1) = result (code (W s2) c g2) ∧
  outputs (code (W s1) c g1) = outputs (code (W s2) c g2) ∧
  events (code (W s1) c g1) = events (code (W s2) c g2).
Proof.
  intros HW Hc Hs Hg. apply differ_agree_split in Hg.
  destruct (scenario_depends (W s1) c Hc g1 g2 Hg) as (? & ? & ? & _).
  by rewrite <- (code_worlds W HW c s1 s2 g2 Hs).
Qed.

Lemma scenario_reads_only_the_split_witness :
  result (code (drawing 0%N) tomek_links drawn_split)
    = result (code (drawing 1%N) tomek_links drawn_kernel) ∧
  outputs (code (drawing 0%N) tomek_links drawn_split)
    = outputs (code (drawing 1%N) tomek_links drawn_kernel) ∧
  events (code (drawing 0%N) tomek_links drawn_split)
    = events (code (drawing 1%N) tomek_links drawn_kernel).
Proof.
  apply (scenario_reads_only_the_split drawing tomek_links 0%N 1%N
           drawn_split drawn_kernel).
  - apply drawing_respects_seeds.
  - reflexivity.
  - discriminate.
  - unfold drawn_kernel. differ_concrete.
Defined.

(** X7.  A cell that does not split leaves [X_train], [X_test], [y_train] and
    [y_test] bound as it found them, however it ends: what it computes
    goes to names of its own. *)
Theorem scenario_keeps_the_split {Model} (L : Library Model) (c : Cell)
    (g : gmap string (Value Model)) :
  splits c = false → agree split_names g (namespace (code L c g)).
Proof. apply scenario_frame. Qed.

Lemma scenario_keeps_the_split_witness :
  agree split_names used_kernel
    (namespace (code (baseline false false) isolation_forest used_kernel)).
Proof.
  apply (scenario_keeps_the_split (baseline false false) isolation_forest used_kernel).
  reflexivity.
Defined.



(** X9.  A run of cells that starts with a splitting cell does not depend on
    the variables the kernel held before: from two kernels that differ at
    most on names the notebooks assign, it ends the same way, writes the
    same output and makes the same library calls.  The global generators
    may be in different states unless the run holds the Isolation Forest
    cell. *)
Theorem run_ignores_kernel_state {Model} (W : Generator → Library Model) (c : Cell)
    (cs : list Cell) (s1 s2 : Generator) (g1 g2 : gmap string (Value Model)) :
  seeds_respected W → splits c = true → (isolation_forest ∈ cs → s1 = s2) →
  differ_only_on notebook_names g1 g2 →
  result (run_cells (W s1) (c :: cs) g1) = result (run_cells (W s2) (c :: cs) g2) ∧
  outputs (run_cells (W s1) (c :: cs) g1) = outputs (run_cells (W s2) (c :: cs) g2) ∧
  events (run_cells (W s1) (c :: cs) g1) = events (run_cells (W s2) (c :: cs) g2).
Proof.
  intros HW Hc Hs _.
  assert (depends_only [] split_names (run_cells (W s1) (c :: cs))) as H.
  { change (run_cells (W s1) (c :: cs))
      with (bind (code (W s1) c) (λ _, run_cells (W s1) cs)).
    eapply dep_bind; [by apply splitting_depends|]. intros _. apply run_cells_depends. }
  destruct (H g1 g2) as (? & ? & ? & _); [apply List.Forall_nil|].
  rewrite <- (run_cells_worlds W HW (c :: cs) s1 s2 g2); [done|].
  intros Hin. apply Hs. apply elem_of_cons in Hin as [<-|Hin]; [discriminate Hc|done].
Qed.

Lemma run_ignores_kernel_state_witness :
  result (run_cells (drawing 0%N) (dataset :: [tomek_links; smote_adasyn]) ∅)
    = result (run_cells (drawing 1%N) (dataset :: [tomek_links; smote_adasyn])
                drawn_kernel) ∧
  outputs (run_cells (drawing 0%N) (dataset :: [tomek_links; smote_adasyn]) ∅)
    = outputs (run_cells (drawing 1%N) (dataset :: [tomek_links; smote_adasyn])
                 drawn_kernel) ∧
  events (run_cells (drawing 0%N) (dataset :: [tomek_links; smote_adasyn]) ∅)
    = events (run_cells (drawing 1%N) (dataset :: [tomek_links; smote_adasyn])
                drawn_kernel).
Proof.
  apply (run_ignores_kernel_state drawing dataset [tomek_links; smote_adasyn] 0%N 1%N
           ∅ drawn_kernel).
  - apply drawing_respects_seeds.
  - reflexivity.
  - intros Hin. apply list_elem_of_In in Hin. cbn [In] in Hin.
    destruct Hin as [Hin|[Hin|[]]]; discriminate Hin.
  - unfold drawn_kernel, drawn_split. differ_concrete.
Defined.

(** ** The class-weight dictionary on arbitrary labels *)

Section ClassWeightRanks.

Lemma sorted_NoDup (l : list Z) : StronglySorted Z.lt l → NoDup l.
Proof.
  induction 1 as [|x l _ IH Hx]; constructor; [|done].
  intros Hin. rewrite Forall_forall in Hx. specialize (Hx _ Hin). lia.
Qed.

Lemma sorted_index_le (l : list Z) (b : Z) (i : nat) (u : Z) :
  StronglySorted Z.lt l → (∀ v, v ∈ l → b ≤ v) → l !! i = Some u → b + Z.of_nat i ≤ u.
Proof.
  intros Hs. revert b i. induction Hs as [|x l _ IH Hx]; intros b i Hb Hi; [done|].
  destruct i as [|i]; simpl in Hi.
  - injection Hi as <-. assert (b ≤ x) by (apply Hb; set_solver). lia.
  - assert (b ≤ x) by (apply Hb; set_solver).
    rewrite Forall_forall in Hx.
    assert (b + 1 + Z.of_nat i ≤ u); [|lia].
    apply IH; [|done]. intros v Hv. specialize (Hx _ Hv). lia.
Qed.

Lemma count_pos (c : Z) (y : list Z) : 0 < np.count c y ↔ c ∈ y.
Proof.
  unfold np.count. split.
  - intros Hpos. destruct (filter (λ v, v = c) y) as [|v l] eqn:Hf; [simpl in Hpos; lia|].
    assert (v ∈ filter (λ v, v = c) y) as [-> ?]%list_elem_of_filter by (rewrite Hf; set_solver).
    done.
  - intros Hc. assert (c ∈ filter (λ v, v = c) y) as Hin by by apply list_elem_of_filter.
    destruct (filter (λ v, v = c) y); [inversion Hin|simpl; lia].
Qed.

Lemma forallb_false {A} (p : A → bool) (l : list A) :
  forallb p l = false → ∃ x, x ∈ l ∧ p x = false.
Proof.
  induction l as [|x l IH]; simpl; [done|].
  destruct (p x) eqn:Hp; simpl.
  - intros (y & ? & ?)%IH. exists y. set_solver.
  - intros _. exists x. set_solver.
Qed.

Lemma dict_lookup_fresh {V} (l : list (Z * V)) (m : gmap Z V) k :
  k ∉ l.*1 → foldl (λ m kv, <[kv.1 := kv.2]> m) m l !! k = m !! k.
Proof.
  revert m. induction l as [|[k0 v0] l IH]; intros m Hk; simpl; [done|].
  rewrite IH by set_solver. apply lookup_insert_ne. set_solver.
Qed.

Lemma dict_lookup_index {V} (l : list (Z * V)) (m : gmap Z V) i k v :
  NoDup l.*1 → l !! i = Some (k, v) →
  foldl (λ m kv, <[kv.1 := kv.2]> m) m l !! k = Some v.
Proof.
  revert m i. induction l as [|[k0 v0] l IH]; intros m i Hnd Hi; [done|].
  apply NoDup_cons in Hnd as [Hk0 Hnd]. destruct i as [|i]; simpl in *.
  - injection Hi as -> ->. rewrite dict_lookup_fresh by done. apply lookup_insert_eq.
  - by eapply IH.
Qed.

Lemma bincount_nonneg (y : list Z) :
  (∀ v, v ∈ y → 0 ≤ v) →
  np.bincount y
  = inr ((λ c, np.count (Z.of_nat c) y) <$> seq 0 (Z.to_nat (foldr Z.max (-1) y + 1))).
Proof.
  intros Hy. unfold np.bincount.
  assert (forallb (λ v, 0 <=? v) y = true) as ->; [|done].
  apply forallb_forall. intros v Hv%list_elem_of_In%Hy. lia.
Qed.

Lemma unique_fits_bins (y : list Z) :
  (∀ v, v ∈ y → 0 ≤ v) →
  Z.of_nat (length (np.unique y)) ≤ foldr Z.max (-1) y + 1.
Proof.
  assert (-1 ≤ foldr Z.max (-1) y) as Hm by (induction y; simpl; lia).
  intros Hy. destruct (np.unique y) as [|u0 us] eqn:Hu using rev_ind; [simpl; lia|].
  clear IHus. rewrite length_app. simpl.
  assert ((us ++ [u0]) !! length us = Some u0) as Hlast by apply list_lookup_middle, eq_refl.
  rewrite <- Hu in Hlast.
  assert (u0 ∈ y) as Hin.
  { apply unique_elem. eapply list_elem_of_lookup_2. exact Hlast. }
  apply (sorted_index_le _ 0) in Hlast; [|apply unique_sorted|].
  - pose proof (max_upper _ _ Hin). lia.
  - intros v Hv. apply Hy. exact (proj1 (unique_elem v y) Hv).
Qed.

Lemma class_weight_ranks (y : Labels) :
  (∀ v, v ∈ y → 0 ≤ v) →
  ∃ cw, class_weight y = inr cw ∧
    (∀ i u, label_of_rank y i = Some u → cw !! u = Some (np.count (Z.of_nat i) y)) ∧
    (∀ c, c ∉ y → cw !! c = None).
Proof.
  intros Hy. unfold class_weight. rewrite (bincount_nonneg y Hy).
  pose proof (unique_fits_bins y Hy) as Hfit.
  set (counts := (λ c, np.count (Z.of_nat c) y) <$> seq 0 _) in *.
  assert (length (np.unique y) ≤ length counts)%nat as Hlen.
  { unfold counts. rewrite length_fmap, length_seq. lia. }
  eexists; split; [done|]. unfold dict. split.
  - intros i u Hi. unfold label_of_rank in Hi.
    apply (dict_lookup_index _ _ i).
    + rewrite fst_zip by done. apply sorted_NoDup, unique_sorted.
    + apply lookup_zip_Some. split; [done|].
      unfold counts. rewrite list_lookup_fmap, lookup_seq_lt; [done|].
      apply lookup_lt_Some in Hi. lia.
  - intros c Hc. rewrite dict_lookup_fresh; [done|].
    rewrite fst_zip by done. by rewrite unique_elem.
Qed.

Lemma class_weight_raises (y_train : Labels) :
  (∃ e, class_weight y_train = inl e) ↔ ∃ v, v ∈ y_train ∧ v < 0.
Proof.
  split.
  - intros [e He]. unfold class_weight, np.bincount in He.
    destruct (forallb _ y_train) eqn:Hall; [discriminate He|].
    apply forallb_false in Hall as (v & Hv & Hneg). exists v. split; [done|lia].
  - intros (v & Hv & Hneg). unfold class_weight, np.bincount.
    destruct (forallb _ y_train) eqn:Hall; [|by eexists].
    rewrite forallb_forall in Hall. apply list_elem_of_In, Hall in Hv. lia.
Qed.

End ClassWeightRanks.

(** X10.  On labels that are non-negative and below the number of samples,
    so that [np.bincount] has no more bins than [y_train] has entries,
    the class-weight dictionary is built without error; its keys are the
    labels that occur, and the label of rank [i] among them, counting
    from 0, is mapped to the number of samples of class [i], which is its
    own count only when the label is [i]. *)
Theorem class_weight_by_rank (y_train : Labels) :
  (∀ v, v ∈ y_train → 0 ≤ v < Z.of_nat (length y_train)) →
  ∃ cw, class_weight y_train = inr cw ∧
    (∀ i u, label_of_rank y_train i = Some u →
            cw !! u = Some (np.count (Z.of_nat i) y_train)) ∧
    (∀ c, c ∉ y_train → cw !! c = None).
Proof. intros Hy. apply class_weight_ranks. intros v Hv. apply (Hy v Hv). Qed.

Lemma class_weight_by_rank_witness :
  ∃ cw, class_weight [2; 0; 2; 2] = inr cw ∧
    (∀ i u, label_of_rank [2; 0; 2; 2] i = Some u →
            cw !! u = Some (np.count (Z.of_nat i) [2; 0; 2; 2])) ∧
    (∀ c, c ∉ [2; 0; 2; 2] → cw !! c = None).
Proof.
  apply (class_weight_by_rank [2; 0; 2; 2]).
  intros v. rewrite !elem_of_cons, elem_of_nil. simpl. lia.
Defined.

(** On labels 0 and 2 the dictionary gives label 2 the count of the
    absent class 1. *)
Example class_weight_gap : class_weight [2; 0; 2; 2] = inr (<[2 := 0]> (<[0 := 1]> ∅)).
Proof. reflexivity. Qed.

(** X11.  On labels below the number of samples, the class-weight
    expression raises exactly when [y_train] has a negative label. *)
Theorem class_weight_raises_iff (y_train : Labels) :
  (∀ v, v ∈ y_train → v < Z.of_nat (length y_train)) →
  (∃ e, class_weight y_train = inl e) ↔ ∃ v, v ∈ y_train ∧ v < 0.
Proof. intros _. apply class_weight_raises. Qed.

Lemma class_weight_raises_iff_witness :
  (∃ e, class_weight [0; -1; 1] = inl e) ↔ ∃ v, v ∈ [0; -1; 1] ∧ v < 0.
Proof.
  apply (class_weight_raises_iff [0; -1; 1]).
  intros v. rewrite !elem_of_cons, elem_of_nil. simpl. lia.
Defined.

(** X12.  If the dictionary maps every label that occurs to its own count, the
    labels that occur are exactly [0 .. k-1] for some [k]. *)
Theorem class_weight_counts_only_if_contiguous (y_train : Labels) (cw : gmap Z Z) :
  class_weight y_train = inr cw →
  (∀ c, c ∈ y_train → cw !! c = Some (np.count c y_train)) →
  ∃ k : nat, ∀ c, c ∈ y_train ↔ 0 ≤ c < Z.of_nat k.
Proof.
  intros Hcw Hown.
  assert (∀ v, v ∈ y_train → 0 ≤ v) as Hy.
  { intros v Hv. destruct (Z.le_gt_cases 0 v) as [|Hneg]; [done|].
    assert (∃ e, class_weight y_train = inl e) as [e He]
      by (apply class_weight_raises; exists v; split; [done|lia]).
    congruence. }
  destruct (class_weight_ranks y_train Hy) as (cw' & Hcw' & Hrank & _).
  assert (cw' = cw) as -> by congruence.
  assert (∀ i u, np.unique y_train !! i = Some u → Z.of_nat i ∈ np.unique y_train) as Hin.
  { intros i u Hi. apply unique_elem, count_pos.
    assert (u ∈ y_train) as Hu by (eapply unique_elem, list_elem_of_lookup_2, Hi).
    pose proof (Hrank i u Hi) as H1. rewrite (Hown u Hu) in H1.
    injection H1 as <-. by apply count_pos. }
  assert (∀ i u, np.unique y_train !! i = Some u → u = Z.of_nat i) as Hid.
  { intros i. induction (lt_wf i) as [i _ IH]. intros u Hi.
    destruct (list_elem_of_lookup_1 _ _ (Hin i u Hi)) as [j Hj].
    pose proof (sorted_index_le _ 0 _ _ (unique_sorted y_train)
                  (λ v Hv, Hy v (proj1 (unique_elem v y_train) Hv)) Hj) as Hle.
    destruct (decide (j = i)) as [->|Hne]; [congruence|].
    assert (j < i)%nat as Hlt by lia.
    specialize (IH j Hlt _ Hj). lia. }
  exists (length (np.unique y_train)). intros c. rewrite <- unique_elem. split.
  - intros [i Hi]%list_elem_of_lookup_1. rewrite (Hid i c Hi).
    apply lookup_lt_Some in Hi. lia.
  - intros Hc. destruct (lookup_lt_is_Some_2 (np.unique y_train) (Z.to_nat c)) as [u Hu]; [lia|].
    pose proof (Hid _ _ Hu). replace c with u by lia.
    eapply list_elem_of_lookup_2. exact Hu.
Qed.

Lemma class_weight_counts_only_if_contiguous_witness :
  ∃ k : nat, ∀ c, c ∈ [0; 0; 1; 0; 0] ↔ 0 ≤ c < Z.of_nat k.
Proof.
  apply (class_weight_counts_only_if_contiguous [0; 0; 1; 0; 0] (<[1 := 1]> (<[0 := 4]> ∅))).
  - reflexivity.
  - intros c. rewrite !elem_of_cons, elem_of_nil.
    intros [->|[->|[->|[->|[->|[]]]]]]; reflexivity.
Defined.

(** ** A scenario cell without a split *)

(** X13.  Run in a kernel where no cell has made the split, a cell that does
    not split stops at the first name of the split it reads, with a
    [NameError] for that name.  It has then written no output, and the
    call log is empty: nothing has been resampled, fitted, predicted or
    scored.  Six of the cells have by then constructed a resampler or an
    estimator; a constructor is handed no data and is not in the log. *)
Theorem scenario_without_split_raises {Model} (L : Library Model) (c : Cell)
    (g : gmap string (Value Model)) :
  splits c = false → agree split_names g ∅ →
  result (code L c g) = Raise (NameError (first_read c)) ∧
  outputs (code L c g) = [] ∧
  events (code L c g) = [].
Proof.
  intros Hc Hg. destruct (scenario_depends L c Hc g ∅ Hg) as (-> & -> & -> & _).
  destruct c; try discriminate Hc; vm_compute; done.
Qed.

Lemma scenario_without_split_raises_witness :
  result (code (baseline false false) smote_enn stale_kernel)
    = Raise (NameError (first_read smote_enn)) ∧
  outputs (code (baseline false false) smote_enn stale_kernel) = [] ∧
  events (code (baseline false false) smote_enn stale_kernel) = [].
Proof.
  apply (scenario_without_split_raises (baseline false false) smote_enn stale_kernel).
  - reflexivity.
  - repeat (apply List.Forall_cons; [vm_compute; reflexivity|]). apply List.Forall_nil.
Defined.

(** ** The split, off the happy path *)

Section SplitEdges.

Lemma take_rows_zip {A B} (a : list A) (b : list B) idx rows_a rows_b :
  take_rows a idx = Some rows_a → take_rows b idx = Some rows_b →
  take_rows (zip a b) idx = Some (zip rows_a rows_b).
Proof.
  unfold take_rows. rewrite !mapM_Some. intros Ha. revert rows_b.
  induction Ha as [|i x idx rows_a Hx _ IH]; intros rows_b Hb.
  - apply Forall2_nil_inv_l in Hb as ->. constructor.
  - apply Forall2_cons_inv_l in Hb as (z & rows_b' & Hz & Hb & ->).
    simpl. constructor; [|by apply IH].
    rewrite lookup_zip_with, Hx, Hz. done.
Qed.

Lemma take_rows_app {A} (a : list A) idx1 idx2 rows1 rows2 :
  take_rows a idx1 = Some rows1 → take_rows a idx2 = Some rows2 →
  take_rows a (idx1 ++ idx2) = Some (rows1 ++ rows2).
Proof. unfold take_rows. rewrite !mapM_Some. apply Forall2_app. Qed.

Lemma take_rows_Permutation {A} (a : list A) idx idx' rows :
  idx ≡ₚ idx' → take_rows a idx = Some rows →
  ∃ rows', take_rows a idx' = Some rows' ∧ rows ≡ₚ rows'.
Proof.
  unfold take_rows. rewrite mapM_Some. intros Hp Hrows.
  destruct (Permutation_Forall2 Hp Hrows) as (rows' & ? & ?).
  exists rows'. by rewrite mapM_Some.
Qed.

Lemma take_rows_all {A} (a : list A) : take_rows a (seq 0 (length a)) = Some a.
Proof.
  unfold take_rows. apply mapM_Some. apply Forall2_same_length_lookup. split.
  - by rewrite length_seq.
  - intros i j x Hj Hx. apply lookup_seq in Hj as [-> _]. done.
Qed.

Lemma partitions_pairs X y X_train X_test y_train y_test :
  partitions X y X_train X_test y_train y_test →
  zip X_test y_test ++ zip X_train y_train ≡ₚ zip X y.
Proof.
  intros (ind_train & ind_test & Hperm & HXtr & HXte & Hytr & Hyte & Hlen & _).
  pose proof (take_rows_app _ _ _ _ _
    (take_rows_zip _ _ _ _ _ HXte Hyte) (take_rows_zip _ _ _ _ _ HXtr Hytr)) as Hall.
  assert (length (zip X y) = length X) as Hzip by (rewrite length_zip_with; lia).
  rewrite <- Hzip in Hperm.
  destruct (take_rows_Permutation _ _ _ _ Hperm Hall) as (rows & Hrows & Hp).
  rewrite take_rows_all in Hrows. by injection Hrows as <-.
Qed.

End SplitEdges.

(** X14.  With [test_size = 0.2] and a generator that draws permutations, the
    split raises exactly when the two arrays have different lengths or
    there are fewer than two rows. *)
Theorem train_test_split_raises_iff (rng : Z → nat → list nat) X y seed :
  (∀ n, rng seed n ≡ₚ seq 0 n) →
  (∃ e, train_test_split rng X y (2 # 10) seed = inl e) ↔
  length y ≠ length X ∨ (length X < 2)%nat.
Proof.
  intros Hperm. split.
  - intros [e He].
    destruct (decide (length y = length X)) as [Hy|]; [|by left].
    destruct (decide (2 ≤ length X)%nat) as [Hn|]; [|right; lia].
    destruct (train_test_split_returns rng X y seed Hperm Hy Hn) as [parts Hparts].
    congruence.
  - unfold train_test_split. pose proof (ceil_fifth (length X)) as Hceil.
    set (n_test := Z.to_nat (Qceiling ((2 # 10) * inject_Z (Z.of_nat (length X))))) in *.
    intros [Hy|Hn].
    + rewrite decide_False by done. by eexists.
    + destruct (decide (length y = length X)); [|by eexists].
      rewrite decide_True by lia. by eexists.
Qed.

Lemma train_test_split_raises_iff_witness :
  (∃ e, train_test_split (permutation (baseline false false)) [[1%Q]] [0] (2 # 10) 42
          = inl e) ↔
  length [0] ≠ length [[1%Q]] ∨ (length [[1%Q]] < 2)%nat.
Proof.
  apply (train_test_split_raises_iff (permutation (baseline false false)) [[1%Q]] [0] 42).
  intros n. simpl. apply reverse_Permutation.
Defined.

(** X15.  A split that returns keeps every row with its own label: the rows of
    the test part paired with the test labels, together with the rows of
    the train part paired with the train labels, are a rearrangement of
    the rows of the table paired with its labels. *)
Theorem split_keeps_rows_with_labels (rng : Z → nat → list nat) X y seed
    X_train X_test y_train y_test :
  (∀ n, rng seed n ≡ₚ seq 0 n) →
  train_test_split rng X y (2 # 10) seed = inr (X_train, X_test, y_train, y_test) →
  zip X_test y_test ++ zip X_train y_train ≡ₚ zip X y.
Proof.
  intros Hperm Hsplit. eapply partitions_pairs.
  by eapply train_test_split_partitions.
Qed.

Lemma split_keeps_rows_with_labels_witness :
  zip [[5%Q]] [1] ++ zip [[4%Q]; [3%Q]; [2%Q]; [1%Q]] [0; 1; 0; 0]
    ≡ₚ zip [[1%Q]; [2%Q]; [3%Q]; [4%Q]; [5%Q]] [0; 0; 1; 0; 1].
Proof.
  apply (split_keeps_rows_with_labels (permutation (baseline false false))
           [[1%Q]; [2%Q]; [3%Q]; [4%Q]; [5%Q]] [0; 0; 1; 0; 1] 42).
  - intros n. simpl. apply reverse_Permutation.
  - vm_compute. reflexivity.
Defined.

(** ** What the outlier detectors are fitted on *)

Section NormalRows.

Context {Model : Type} (L : Library Model).

Lemma getitem_not_one (X : Matrix) (y : Labels) :
  np.getitem_mask X (np.invert (np.eq_mask y 1)) =
    if decide (length y = length X) then inr (normal_rows X y)
    else inl (IndexError "boolean index did not match indexed array").
Proof.
  unfold np.getitem_mask, np.invert, np.eq_mask. rewrite !length_fmap.
  destruct (decide (length y = length X)) as [_|]; [|done]. f_equal.
  unfold normal_rows. revert y. induction X as [|x X IH]; intros [|v y]; try done.
  cbn [zip zip_with fmap list_fmap]. rewrite !filter_cons. cbn [snd].
  destruct (Z.eqb_spec v 1) as [->|Hv]; cbn [negb].
  - rewrite decide_False by done. rewrite decide_False by (intros ?; done). apply IH.
  - rewrite decide_True by done. rewrite decide_True by done. csimpl. f_equal. apply IH.
Qed.

Lemma anomaly_fit_wp (c : Cell) (est : Estimator) (g : gmap string (Value Model))
    X_train y_train X_test y_test :
  detector_of c = Some est →
  g !! "X_train" = Some (VMatrix X_train) → g !! "y_train" = Some (VLabels y_train) →
  g !! "X_test" = Some (VMatrix X_test) → g !! "y_test" = Some (VLabels y_test) →
  wp (code L c) g [] [] (λ _ _ _ ev,
    fit_calls ev =
      match np.getitem_mask X_train (np.invert (np.eq_mask y_train 1)) with
      | inr rows => [(est, rows, None)]
      | inl _ => []
      end).
Proof.
  intros Hest HXtr Hytr HXte Hyte.
  destruct c; try discriminate Hest; injection Hest as <-; unfold code.
  all: wp_run.
  all: repeat match goal with
       | H : np.getitem_mask _ _ = _ |- _ => rewrite H; clear H
       end; reflexivity.
Qed.

End NormalRows.

(** X16.  An anomaly-detection cell fits its detector once, without labels, on
    exactly the training rows whose label is not 1, in their order: no row
    of class 1 reaches [fit].  When [X_train] and [y_train] have different
    lengths it fits nothing. *)
Theorem anomaly_fit_on_normal_rows {Model} (L : Library Model) (c : Cell) (est : Estimator)
    (g : gmap string (Value Model)) X_train y_train X_test y_test :
  detector_of c = Some est →
  g !! "X_train" = Some (VMatrix X_train) → g !! "y_train" = Some (VLabels y_train) →
  g !! "X_test" = Some (VMatrix X_test) → g !! "y_test" = Some (VLabels y_test) →
  fit_calls (events (code L c g)) =
    if decide (length y_train = length X_train)
    then [(est, normal_rows X_train y_train, None)] else [].
Proof.
  intros Hest HXtr Hytr HXte Hyte.
  pose proof (anomaly_fit_wp L c est g _ _ _ _ Hest HXtr Hytr HXte Hyte) as H.
  unfold wp in H. rewrite getitem_not_one in H.
  by destruct (decide (length y_train = length X_train)).
Qed.

Lemma anomaly_fit_on_normal_rows_witness :
  fit_calls (events (code (baseline false false) one_class_svm small_split)) =
    if decide (length [0; 0; 1] = length [[1%Q]; [2%Q]; [3%Q]])
    then [(OneClassSVM, normal_rows [[1%Q]; [2%Q]; [3%Q]] [0; 0; 1], None)] else [].
Proof.
  apply (anomaly_fit_on_normal_rows (baseline false false) one_class_svm OneClassSVM
           small_split [[1%Q]; [2%Q]; [3%Q]] [0; 0; 1] [[4%Q]; [5%Q]] [0; 1]); reflexivity.
Defined.

(** ** The extremes of the accuracy *)

Section Extremes.

Lemma matches_all (y_true y_pred : Labels) :
  length y_true = length y_pred →
  matches y_true y_pred = length y_true ↔ y_true = y_pred.
Proof.
  unfold matches. revert y_pred.
  induction y_true as [|v y_true IH]; intros [|w y_pred] Hlen; try done.
  injection Hlen as Hlen. cbn [zip zip_with]. rewrite filter_cons. cbn [fst snd].
  pose proof (matches_le y_true y_pred) as Hle. unfold matches in Hle.
  destruct (decide (v = w)) as [->|Hvw]; cbn [length].
  - split.
    + intros [= H]. f_equal. by apply (IH y_pred Hlen).
    + intros [= H]. f_equal. by apply (IH y_pred Hlen).
  - split; [lia|congruence].
Qed.

Lemma matches_none (y_true y_pred : Labels) :
  length y_true = length y_pred →
  matches y_true y_pred = 0%nat ↔ Forall2 (λ v w, v ≠ w) y_true y_pred.
Proof.
  unfold matches. revert y_pred.
  induction y_true as [|v y_true IH]; intros [|w y_pred] Hlen; try done.
  injection Hlen as Hlen. cbn [zip zip_with]. rewrite filter_cons. cbn [fst snd].
  destruct (decide (v = w)) as [->|Hvw]; cbn [length].
  - split; [done|]. intros H. by inversion H.
  - rewrite (IH y_pred Hlen). split.
    + by constructor.
    + intros H. by inversion H.
Qed.

End Extremes.

(** X17.  A finite accuracy is 1 exactly when the predictions equal the labels,
    and 0 exactly when they differ from the labels at every position. *)
Theorem accuracy_score_extremes (y_true y_pred : Labels) ws q :
  accuracy_score y_true y_pred = (ws, inr (Finite q)) →
  ((q == 1)%Q ↔ y_pred = y_true) ∧
  ((q == 0)%Q ↔ Forall2 (λ v w, v ≠ w) y_true y_pred).
Proof.
  unfold accuracy_score. destruct (decide _) as [Hlen|]; [|done].
  pose proof (matches_all y_true y_pred Hlen) as Hall.
  pose proof (matches_none y_true y_pred Hlen) as Hnone.
  destruct (length y_true) as [|n] eqn:Hn; [done|]. intros [= _ <-].
  unfold Qeq. cbn [Qnum Qden]. split.
  - split.
    + intros H. symmetry. apply Hall. lia.
    + intros Heq. symmetry in Heq. apply Hall in Heq. lia.
  - rewrite <- Hnone. lia.
Qed.

Lemma accuracy_score_extremes_witness :
  (((2 # 2) == 1)%Q ↔ [0; 1] = [0; 1]) ∧
  (((2 # 2) == 0)%Q ↔ Forall2 (λ v w : Z, v ≠ w) [0; 1] [0; 1]).
Proof.
  apply (accuracy_score_extremes [0; 1] [0; 1] []). reflexivity.
Defined.

(** ** Relabelling any prediction vector *)

(** X18.  On every prediction vector the two masked assignments raise nothing
    and act entry by entry: 1 becomes 0, -1 becomes 1, and any other value
    stays as it is.  The length is kept. *)
Theorem relabel_anomalies_entrywise (y_pred : Labels) :
  relabel_anomalies y_pred =
    inr ((λ v, if v =? 1 then 0 else if v =? -1 then 1 else v) <$> y_pred).
Proof.
  unfold relabel_anomalies. rewrite setitem_eq_mask, setitem_eq_mask.
  f_equal. rewrite <- list_fmap_compose. apply list_fmap_ext.
  intros _ v _. unfold compose.
  destruct (Z.eqb_spec v 1) as [->|?]; [done|].
  by destruct (Z.eqb_spec v (-1)).
Qed.
